(** * Risk metrics of the crypto volatility and risk analyser

    A shallow embedding of the numerical core of the repository:
    compute_log_returns and generate_metrics ([src/data_processor.py]),
    volatility, sharpe_ratio, beta and historical_var
    ([src/risk_metrics.py]), and the rolling volatility computed by
    plot_volatility_plotly ([src/visualizations.py]), by the dashboard
    ([dashboard/app.py]) and by add_indicators ([main.py]).

    Numbers.  A Python or numpy float is an [xreal]: a real number, or one
    of the IEEE special values NaN, -inf and +inf.  Arithmetic on numbers is
    exact (rounding, overflow and the sign of zero are not modelled);
    arithmetic on the special values is numpy's: x/0 is an infinity or NaN,
    log 0 is -inf, the log or square root of a negative number is NaN, NaN is
    absorbing and NaN == 0 is false.  pandas takes NaN, and only NaN, for a
    missing value.  Where rounding decides what the code does, the exact
    comparison of a computed deviation with 0 in sharpe_ratio, the function
    is modelled a second time over binary64 numbers (module [F64]).

    Frames.  A DataFrame is an index of labels with an ordered list of named
    float columns; a Series is a list of (label, value) pairs.

    What the sources do not contain.  [TRADING_DAYS] of [src/config.py] is a
    parameter of volatility and generate_metrics, and pct_change is a
    parameter of add_indicators.  [src/risk_classifier.py] is absent:
    classify_risk is modelled from the specification. *)

From Stdlib Require Import Reals Lra Lia ZArith.
From Stdlib Require PrimFloat Uint63.
From stdpp Require Import gmap strings list sorting.

Open Scope R_scope.

(** ** Floats with NaN and infinities *)

Inductive xreal : Type :=
  | NaN
  | NInf
  | PInf
  | Fin (r : R).

Module XR.

Definition is_nan (x : xreal) : bool :=
  match x with NaN => true | _ => false end.

(** [pd.notna] *)
Definition notna (x : xreal) : bool := negb (is_nan x).

(** [np.isinf] *)
Definition is_inf (x : xreal) : bool :=
  match x with NInf | PInf => true | _ => false end.

Definition is_finite (x : xreal) : bool :=
  match x with Fin _ => true | _ => false end.

(** sign of a real: -1, 0 or 1 *)
Definition sgn (r : R) : comparison :=
  if Rlt_dec r 0 then Lt else if Rlt_dec 0 r then Gt else Eq.

(** [x == 0] on floats: false on NaN and on the infinities *)
Definition is_zero (x : xreal) : bool :=
  match x with
  | Fin r => if Req_dec_T r 0 then true else false
  | _ => false
  end.

Definition opp (x : xreal) : xreal :=
  match x with
  | NaN => NaN
  | NInf => PInf
  | PInf => NInf
  | Fin r => Fin (- r)
  end.

Definition add (x y : xreal) : xreal :=
  match x, y with
  | NaN, _ | _, NaN => NaN
  | PInf, NInf | NInf, PInf => NaN
  | PInf, _ | _, PInf => PInf
  | NInf, _ | _, NInf => NInf
  | Fin a, Fin b => Fin (a + b)
  end.

Definition sub (x y : xreal) : xreal := add x (opp y).

(** an infinity of the sign of [c], NaN when [c] is [Eq] (inf * 0) *)
Definition inf_of (c : comparison) : xreal :=
  match c with Lt => NInf | Eq => NaN | Gt => PInf end.

Definition flip (c : comparison) : comparison := CompOpp c.

Definition mul (x y : xreal) : xreal :=
  match x, y with
  | NaN, _ | _, NaN => NaN
  | Fin a, Fin b => Fin (a * b)
  | PInf, PInf | NInf, NInf => PInf
  | PInf, NInf | NInf, PInf => NInf
  | PInf, Fin b | Fin b, PInf => inf_of (sgn b)
  | NInf, Fin b | Fin b, NInf => inf_of (flip (sgn b))
  end.

(** numpy true division: a finite non-zero value over zero is an infinity,
    0/0 and inf/inf are NaN *)
Definition div (x y : xreal) : xreal :=
  match x, y with
  | NaN, _ | _, NaN => NaN
  | Fin a, Fin b =>
      if Req_dec_T b 0 then inf_of (sgn a) else Fin (a / b)
  | Fin _, (PInf | NInf) => Fin 0
  | (PInf | NInf), (PInf | NInf) => NaN
  | PInf, Fin b => if Rlt_dec b 0 then NInf else PInf
  | NInf, Fin b => if Rlt_dec b 0 then PInf else NInf
  end.

(** [np.log] *)
Definition log (x : xreal) : xreal :=
  match x with
  | NaN | NInf => NaN
  | PInf => PInf
  | Fin r =>
      match sgn r with
      | Lt => NaN
      | Eq => NInf
      | Gt => Fin (ln r)
      end
  end.

(** [np.sqrt] *)
Definition sqrt (x : xreal) : xreal :=
  match x with
  | NaN | NInf => NaN
  | PInf => PInf
  | Fin r => if Rlt_dec r 0 then NaN else Fin (R_sqrt.sqrt r)
  end.

(** a Python [int] used in float arithmetic *)
Definition of_Z (z : Z) : xreal := Fin (IZR z).

Definition of_nat (n : nat) : xreal := Fin (INR n).

(** the order used when sorting floats: NaN sorts last *)
Definition le (x y : xreal) : Prop :=
  match x, y with
  | _, NaN => True
  | NaN, _ => False
  | NInf, _ => True
  | _, NInf => False
  | _, PInf => True
  | PInf, _ => False
  | Fin a, Fin b => a <= b
  end.

(** strict [<] on floats: false as soon as a NaN is involved *)
Definition lt (x y : xreal) : Prop :=
  match x, y with
  | NaN, _ | _, NaN => False
  | _, NInf => False
  | NInf, _ => True
  | PInf, _ => False
  | _, PInf => True
  | Fin a, Fin b => a < b
  end.

End XR.

#[global] Instance xle_dec (x y : xreal) : Decision (XR.le x y).
Proof.
  destruct x, y; simpl; try (left; exact I); try (right; tauto).
  destruct (Rle_dec r r0); [left | right]; assumption.
Defined.

(** ** Python results *)

Inductive exn : Type :=
  | ValueError (msg : string)
  | TypeError
  | ZeroDivisionError.

Inductive result (A : Type) : Type :=
  | Ok (a : A)
  | Raise (e : exn).
Arguments Ok {A} a.
Arguments Raise {A} e.

(** [try: v = float(e) except Exception: v = None] *)
Inductive PyVal : Type :=
  | PyFloat (x : xreal)
  | PyNone.

Definition try_float (m : result xreal) : PyVal :=
  match m with
  | Ok x => PyFloat x
  | Raise _ => PyNone
  end.

(** ** Series and frames *)

Definition label := Z.

(** a pandas Series of floats: the index labels with their values *)
Definition Series := list (label * xreal).

Definition values (s : Series) : list xreal := s.*2.

(** [pd.Series(xs)]: a fresh RangeIndex *)
Definition Series_of_array (xs : list xreal) : Series :=
  zip (Z.of_nat <$> seq 0 (length xs)) xs.

(** [s.dropna()] *)
Definition dropna (s : Series) : Series :=
  filter (fun p => XR.notna p.2 = true) s.

(** the same on bare values *)
Definition dropna_values (xs : list xreal) : list xreal :=
  filter (fun x => XR.notna x = true) xs.

(** [s.shift(1)]: same length, a NaN in front, the last value lost *)
Definition shift1 (xs : list xreal) : list xreal :=
  take (length xs) (NaN :: xs).

Record DataFrame : Type := mkDF {
  df_index : list label;
  df_columns : list (string * list xreal)
}.

(** every column is as long as the index *)
Definition df_wf (df : DataFrame) : Prop :=
  Forall (fun c => length c.2 = length (df_index df)) (df_columns df).

(** [name in df.columns] and [df[name]] *)
Fixpoint get_col (name : string) (cols : list (string * list xreal))
  : option (list xreal) :=
  match cols with
  | [] => None
  | (n, c) :: rest => if String.eqb n name then Some c else get_col name rest
  end.

(** [df[name] = c]: replaces the column in place, or appends a new one *)
Fixpoint set_col (name : string) (c : list xreal)
  (cols : list (string * list xreal)) : list (string * list xreal) :=
  match cols with
  | [] => [(name, c)]
  | (n, c0) :: rest =>
      if String.eqb n name then (n, c) :: rest
      else (n, c0) :: set_col name c rest
  end.

(** [name in df.columns], [df[name]] and [df[name] = c] on a frame *)
Definition df_get (df : DataFrame) (name : string) : option (list xreal) :=
  get_col name (df_columns df).

Definition df_set (df : DataFrame) (name : string) (c : list xreal)
  : DataFrame :=
  {| df_index := df_index df; df_columns := set_col name c (df_columns df) |}.

(** a column of the frame as a Series: it carries the frame's index *)
Definition df_series (df : DataFrame) (c : list xreal) : Series :=
  zip (df_index df) c.

(** row [i] holds a missing value in some column *)
Definition row_has_na (cols : list (string * list xreal)) (i : nat) : bool :=
  existsb (fun c => XR.is_nan (nth i c.2 NaN)) cols.

(** keep the entries of [l] whose position passes [keep] *)
Definition select_rows {A} (keep : nat -> bool) (l : list A) : list A :=
  (filter (fun p => keep p.1 = true) (zip (seq 0 (length l)) l)).*2.

(** [df.dropna()]: drops every row with a missing value in any column *)
Definition df_dropna (df : DataFrame) : DataFrame :=
  let keep i := negb (row_has_na (df_columns df) i) in
  {| df_index := select_rows keep (df_index df);
     df_columns :=
       (fun c => (c.1, select_rows keep c.2)) <$> df_columns df |}.

(** ** [src/data_processor.py]: compute_log_returns *)

(** [np.log(close / close.shift(1))] *)
Definition log_return_column (close : list xreal) : list xreal :=
  zip_with (fun c p => XR.log (XR.div c p)) close (shift1 close).

Definition compute_log_returns (df : DataFrame) : result DataFrame :=
  let with_close :=
    match df_get df "Close" with
    | Some _ => Ok df
    | None =>
        match df_get df "price" with
        | Some price => Ok (df_set df "Close" price)
        | None => Raise (ValueError "No Close/price column found")
        end
    end in
  match with_close with
  | Raise e => Raise e
  | Ok df =>
      let close := default [] (df_get df "Close") in
      Ok (df_dropna (df_set df "Log_Return" (log_return_column close)))
  end.

(** ** pandas and numpy reductions *)

Definition xsum (xs : list xreal) : xreal := foldr XR.add (Fin 0) xs.

(** [Series.mean()]: missing values are skipped; 0/0 = NaN when none is left *)
Definition series_mean (xs : list xreal) : xreal :=
  let v := dropna_values xs in
  XR.div (xsum v) (XR.of_nat (length v)).

Definition sq_dev (avg x : xreal) : xreal :=
  let d := XR.sub avg x in XR.mul d d.

(** [Series.var(ddof=ddof)]: NaN unless more than [ddof] values are present,
    else the sum of squared deviations from the mean over [count - ddof] *)
Definition series_var (ddof : nat) (xs : list xreal) : xreal :=
  let v := dropna_values xs in
  let count := length v in
  if (count <=? ddof)%nat then NaN
  else
    let avg := XR.div (xsum v) (XR.of_nat count) in
    XR.div (xsum (sq_dev avg <$> v)) (XR.of_nat (count - ddof)).

(** [Series.std(ddof=ddof)] *)
Definition series_std (ddof : nat) (xs : list xreal) : xreal :=
  XR.sqrt (series_var ddof xs).

(** numpy's interpolation between two neighbouring order statistics *)
Definition lerp (a b : xreal) (t : R) : xreal :=
  let diff_b_a := XR.sub b a in
  if Rle_dec (1 / 2) t
  then XR.sub b (XR.mul diff_b_a (Fin (1 - t)))
  else XR.add a (XR.mul diff_b_a (Fin t)).

(** [np.quantile(a, q)] with the default "linear" method, for [q] already
    checked to lie in [0, 1]: with the values sorted, the virtual index
    q * (n - 1) is split into its integer part j and fraction g, and the
    result interpolates between the j-th value and the next.  A NaN among
    the values makes the result NaN. *)
Definition quantile_linear (a : list xreal) (q : R) : xreal :=
  if existsb XR.is_nan a then NaN
  else
    let arr := merge_sort XR.le a in
    let n := length arr in
    let virtual_index := q * (INR n - 1) in
    let previous_index := Z.to_nat (Int_part virtual_index) in
    let next_index := Nat.min (previous_index + 1) (n - 1) in
    let gamma := frac_part virtual_index in
    lerp (nth previous_index arr NaN) (nth next_index arr NaN) gamma.

Definition np_quantile (a : list xreal) (q : xreal) : result xreal :=
  match q with
  | Fin q =>
      if Rle_dec 0 q then
        if Rle_dec q 1 then Ok (quantile_linear a q)
        else Raise (ValueError "Quantiles must be in the range [0, 1]")
      else Raise (ValueError "Quantiles must be in the range [0, 1]")
  | _ => Raise (ValueError "Quantiles must be in the range [0, 1]")
  end.

(** [a.cov(b)]: the two series are aligned on their common labels (labels
    are taken to be unique), pairs with a missing value are left out, and
    the sample covariance of what remains is returned; NaN when no pair
    remains, and 0/0 = NaN when a single one does *)
Definition lookup_label (l : label) (s : Series) : option xreal :=
  (fun r => r.2.2) <$> list_find (fun p => p.1 = l) s.

Definition align_inner (a b : Series) : list (xreal * xreal) :=
  omap (fun p => (fun y => (p.2, y)) <$> lookup_label p.1 b) a.

Definition series_cov (a b : Series) : xreal :=
  let pairs :=
    filter (fun p => XR.notna p.1 && XR.notna p.2 = true) (align_inner a b) in
  let n := length pairs in
  if (n <? 1)%nat then NaN
  else
    let ma := XR.div (xsum pairs.*1) (XR.of_nat n) in
    let mb := XR.div (xsum pairs.*2) (XR.of_nat n) in
    XR.div
      (xsum ((fun p => XR.mul (XR.sub p.1 ma) (XR.sub p.2 mb)) <$> pairs))
      (XR.of_nat (n - 1)).

(** ** [src/risk_metrics.py] *)

(** what a caller may pass for a series of returns: a pandas Series, or a
    plain list or numpy array *)
Inductive PyReturns : Type :=
  | PySeries (s : Series)
  | PyArray (xs : list xreal).

(** [TRADING_DAYS] comes from [src/config.py]; it is a parameter here.
    [np.std] of a Series is [Series.std(ddof=0)], the population form. *)
Definition volatility (TRADING_DAYS : Z) (returns : Series) : xreal * xreal :=
  let r := dropna returns in
  let daily_vol := series_std 0 (values r) in
  let annual_vol := XR.mul daily_vol (XR.sqrt (XR.of_Z TRADING_DAYS)) in
  (daily_vol, annual_vol).

(** [pd.Series(returns)] unless [returns] is a Series already *)
Definition as_series (returns : PyReturns) : Series :=
  match returns with
  | PyArray xs => Series_of_array xs
  | PySeries s => s
  end.

Definition sharpe_ratio (returns : PyReturns) (risk_free_rate : xreal)
  (trading_days : Z) (annualized : bool) : result xreal :=
  let r := as_series returns in
  let r := dropna r in
  if XR.is_zero (series_std 1 (values r)) || (length r =? 0)%nat
  then Ok (Fin 0)
  else
    let mean_daily := series_mean (values r) in
    let std_daily := series_std 1 (values r) in
    if annualized then
      let excess_annual_return :=
        XR.sub (XR.mul mean_daily (XR.of_Z trading_days)) risk_free_rate in
      let annualized_vol :=
        XR.mul std_daily (XR.sqrt (XR.of_Z trading_days)) in
      if XR.is_zero annualized_vol then Ok (Fin 0)
      else Ok (XR.div excess_annual_return annualized_vol)
    else if (trading_days =? 0)%Z then Raise ZeroDivisionError
    else
      Ok (XR.div
            (XR.sub mean_daily
               (XR.div risk_free_rate (XR.of_Z trading_days)))
            std_daily).

(** the defaults of the signature *)
Definition default_risk_free_rate : xreal := Fin (1 / 100).
Definition default_trading_days : Z := 252.

(** [Series.cov] refuses anything but a Series *)
Definition beta (asset_returns : Series) (benchmark_returns : PyReturns)
  : result xreal :=
  match benchmark_returns with
  | PyArray _ => Raise TypeError
  | PySeries b =>
      let covariance := series_cov asset_returns b in
      let variance := series_var 1 (values b) in
      Ok (XR.div covariance variance)
  end.

Definition historical_var (returns : Series) (level : xreal) : result xreal :=
  let r := dropna returns in
  if (length r =? 0)%nat then Ok (Fin 0)
  else
    match np_quantile (values r) level with
    | Ok q => Ok (XR.opp q)
    | Raise e => Raise e
    end.

(** ** [src/data_processor.py]: generate_metrics *)

Definition generate_metrics (TRADING_DAYS : Z) (df : DataFrame)
  (benchmark_returns : option PyReturns) : result (gmap string PyVal) :=
  match df_get df "Log_Return" with
  | None =>
      Raise (ValueError
               "Log_Return column missing. Run compute_log_returns first.")
  | Some c =>
      let log_return := df_series df c in
      let '(daily_vol, annual_vol) := volatility TRADING_DAYS log_return in
      match
        sharpe_ratio (PySeries log_return) default_risk_free_rate 252 true
      with
      | Raise e => Raise e
      | Ok sharpe =>
          let metrics : gmap string PyVal :=
            <["sharpe_ratio" := PyFloat sharpe]>
              (<["annual_volatility" := PyFloat annual_vol]>
                 (<["daily_volatility" := PyFloat daily_vol]> ∅)) in
          let metrics :=
            <["var_95" :=
                try_float (historical_var log_return (Fin (5 / 100)))]>
              metrics in
          let metrics :=
            match benchmark_returns with
            | Some b => <["beta" := try_float (beta log_return b)]> metrics
            | None => metrics
            end in
          Ok metrics
      end
  end.

(** ** Rolling volatility *)

(** [Series.rolling(window, min_periods).std()]: at position [i] the
    trailing window of at most [window] values ending at [i]; infinities
    count as missing; NaN unless the window holds at least [min_periods]
    (by default [window]) observations, and more than one *)
Definition rolling_window (window : nat) (xs : list xreal) (i : nat)
  : list xreal :=
  drop (i + 1 - window) (take (i + 1) xs).

Definition inf_as_nan (x : xreal) : xreal :=
  if XR.is_inf x then NaN else x.

Definition rolling_std (window : nat) (min_periods : option nat)
  (xs : list xreal) : list xreal :=
  let minp := default window min_periods in
  let vals := inf_as_nan <$> xs in
  (fun i =>
     let w := rolling_window window vals i in
     if (length (dropna_values w) <? minp)%nat then NaN
     else series_std 1 w) <$> seq 0 (length xs).

(** [src/visualizations.py], plot_volatility_plotly: the plotted series *)
Definition plot_volatility_plotly (df : DataFrame) (window : nat)
  : result (list xreal) :=
  match df_get df "Log_Return" with
  | None =>
      Raise (ValueError "Log_Return missing; compute with compute_log_returns")
  | Some log_return => Ok (rolling_std window None log_return)
  end.

(** [dashboard/app.py]: the [rolling_vol] column of the exported frame *)
Definition rolling_vol (log_return : list xreal) (vol_window : nat)
  : list xreal :=
  rolling_std vol_window None log_return.

(** [Series.rolling(window, min_periods).mean()] *)
Definition rolling_mean (window : nat) (min_periods : option nat)
  (xs : list xreal) : list xreal :=
  let minp := default window min_periods in
  let vals := inf_as_nan <$> xs in
  (fun i =>
     let w := rolling_window window vals i in
     if (length (dropna_values w) <? minp)%nat then NaN
     else series_mean w) <$> seq 0 (length xs).

(** [vol * np.sqrt(252)] *)
Definition annualize (vol : list xreal) : list xreal :=
  (fun v => XR.mul v (XR.sqrt (XR.of_Z 252))) <$> vol.

(** [main.py], add_indicators: the two volatility columns, as functions of
    the [Daily_Return] column *)
Definition Volatility_20 (daily_return : list xreal) : list xreal :=
  annualize (rolling_std 20 (Some 20%nat) daily_return).

Definition Volatility_50 (daily_return : list xreal) : list xreal :=
  annualize (rolling_std 50 (Some 50%nat) daily_return).

(** [main.py], add_indicators.  How [Series.pct_change] fills missing
    prices depends on the pandas version, so it is a parameter. *)
Definition add_indicators (pct_change : list xreal -> list xreal)
  (df : DataFrame) : result DataFrame :=
  match df_get df "Close" with
  | None =>
      Raise (ValueError "Input DataFrame does not contain a 'Close' column.")
  | Some close =>
      let df := df_set df "Daily_Return" (pct_change close) in
      let df := df_set df "MA_20" (rolling_mean 20 (Some 1%nat) close) in
      let df := df_set df "MA_50" (rolling_mean 50 (Some 1%nat) close) in
      let daily_return := default [] (df_get df "Daily_Return") in
      let df := df_set df "Volatility_20" (Volatility_20 daily_return) in
      let df := df_set df "Volatility_50" (Volatility_50 daily_return) in
      Ok df
  end.

(** ** Risk tiers *)

Inductive RiskTier : Type := Low | Medium | High.

Definition tier_rank (t : RiskTier) : nat :=
  match t with Low => 0 | Medium => 1 | High => 2 end.

(** the labels used by [plot_risk_distribution] *)
Definition tier_label (t : RiskTier) : string :=
  match t with
  | Low => "Low Risk"
  | Medium => "Medium Risk"
  | High => "High Risk"
  end.

(** Modelled from the spec: [src/risk_classifier.py] is not among the
    sources.  The specification describes classify_risk as a small ordered
    table of (upper bound, exclusive or inclusive, tier) entries evaluated
    in order, the thresholds being a policy decision, with the lowest tier
    as the answer for an input below all thresholds and for a non-finite or
    missing input.  The table and the tier of an input above every bound
    are parameters of the model. *)
Record TierBound : Type := mkBound {
  upper_bound : R;
  inclusive : bool;
  tier : RiskTier
}.

Record Policy : Type := mkPolicy {
  table : list TierBound;
  above_all : RiskTier
}.

Definition below (b : TierBound) (v : R) : bool :=
  if inclusive b
  then (if Rle_dec v (upper_bound b) then true else false)
  else (if Rlt_dec v (upper_bound b) then true else false).

Fixpoint lookup_tier (tbl : list TierBound) (top : RiskTier) (v : R)
  : RiskTier :=
  match tbl with
  | [] => top
  | b :: rest => if below b v then tier b else lookup_tier rest top v
  end.

Definition classify_risk (p : Policy) (annual_volatility : xreal) : RiskTier :=
  match annual_volatility with
  | Fin v =>
      if forallb (fun b => below b v) (table p) then Low
      else lookup_tier (table p) (above_all p) v
  | _ => Low
  end.

(** the tiers never go down along the table *)
Fixpoint tiers_ascend (tbl : list TierBound) (top : RiskTier) : Prop :=
  match tbl with
  | [] => True
  | b :: rest =>
      Forall (fun b' => (tier_rank (tier b) <= tier_rank (tier b'))%nat) rest
      /\ (tier_rank (tier b) <= tier_rank top)%nat
      /\ tiers_ascend rest top
  end.

Definition policy_ok (p : Policy) : Prop := tiers_ascend (table p) (above_all p).

(** [src/visualizations.py], plot_risk_distribution: the tier counted for
    one asset; a metrics dict without the key is read as 0, and a value the
    classifier cannot handle falls back to the lowest tier *)
Definition risk_of_metrics (p : Policy) (m : gmap string PyVal) : RiskTier :=
  match default (PyFloat (Fin 0)) (m !! "annual_volatility") with
  | PyFloat v => classify_risk p v
  | PyNone => Low
  end.

(** ** Vocabulary of the statements *)

(** the price column the function works on: [Close], else [price] *)
Definition close_column (df : DataFrame) : option (list xreal) :=
  match df_get df "Close" with
  | Some c => Some c
  | None => df_get df "price"
  end.

(** a missing value in row [i] of a column not called [name] *)
Definition other_na (name : string) (cols : list (string * list xreal))
  (i : nat) : bool :=
  existsb (fun c => negb (String.eqb c.1 name) && XR.is_nan (nth i c.2 NaN))
    cols.

(** the rows that survive [compute_log_returns] *)
Definition kept (df : DataFrame) (close : list xreal) (i : nat) : bool :=
  negb (other_na "Log_Return" (df_columns df) i)
  && XR.notna (nth i (log_return_column close) NaN).

(** the log returns of a positive price series, as the specification
    writes them: ln (price[t] / price[t-1]) for t = 1 .. n-1 *)
Definition log_returns (prices : list R) : list R :=
  zip_with (fun c p => ln (c / p)) (tail prices) prices.

(** a frame is well formed when its column names are distinct and every
    column is as long as the index *)
Definition df_ok (df : DataFrame) : Prop :=
  NoDup (df_columns df).*1 /\ df_wf df.

(** the statistics as the specification writes them, on real numbers *)

Definition Rsum (l : list R) : R := foldr Rplus 0 l.

Definition Rmean (l : list R) : R := Rsum l / INR (length l).

(** the sum of squared deviations from the mean *)
Definition sum_sq_dev (l : list R) : R :=
  Rsum ((fun x => (x - Rmean l) * (x - Rmean l)) <$> l).

(** population standard deviation: denominator n *)
Definition population_std (l : list R) : R :=
  sqrt (sum_sq_dev l / INR (length l)).

(** sample standard deviation: denominator n - 1 *)
Definition sample_std (l : list R) : R :=
  sqrt (sum_sq_dev l / (INR (length l) - 1)).

(** the non-missing entries of what sharpe_ratio is given *)
Definition non_missing (returns : PyReturns) : list xreal :=
  values (dropna (as_series returns)).

(** the dict built by generate_metrics before the optional beta entry *)
Definition base_metrics (daily annual sharpe var : xreal)
  : gmap string PyVal :=
  <["var_95" := PyFloat var]>
    (<["sharpe_ratio" := PyFloat sharpe]>
       (<["annual_volatility" := PyFloat annual]>
          (<["daily_volatility" := PyFloat daily]> ∅))).

(** ** Example data *)

Definition zero_price_frame : DataFrame :=
  {| df_index := [0; 1; 2]%Z;
     df_columns := [("Close"%string, [Fin 100; Fin 0; Fin 50])] |}.

Definition five_day_frame : DataFrame :=
  {| df_index := [0; 1; 2; 3; 4]%Z;
     df_columns :=
       [("Date"%string, [Fin 1; Fin 2; Fin 3; Fin 4; Fin 5]);
        ("Close"%string, [Fin 100; Fin 105; Fin 102; Fin 108; Fin 110])] |}.

(** the returns of the worked value-at-risk example *)
Definition var_example_returns : list R :=
  [- (5 / 100); - (2 / 100); 0; 1 / 100; 3 / 100].

(** a series of twenty returns: one spike of 1, then zeros *)
Definition spike_returns : list R := 1 :: replicate 19 0.

(** a frame as compute_log_returns leaves it: two rows with log returns *)
Definition two_return_frame : DataFrame :=
  {| df_index := [1; 2]%Z;
     df_columns := [("Close"%string, [Fin 2; Fin 3]);
                    ("Log_Return"%string, [Fin 1; Fin 3])] |}.

(** thresholds chosen for illustration: below 0.4 low, below 0.8 medium *)
Definition example_policy : Policy :=
  {| table := [ {| upper_bound := 4 / 10; inclusive := false; tier := Low |};
                {| upper_bound := 8 / 10; inclusive := false; tier := Medium |} ];
     above_all := High |}.
(** ** Binary64: sharpe_ratio as the machine computes it

    The same function over IEEE 754 double precision numbers, every
    operation rounded to nearest even, with the summation of numpy and the
    mean and variance of pandas written out. *)

Module F64.
Import PrimFloat.
Local Open Scope float_scope.

(** a Python int as a float64 (exact below 2^53) *)
Definition of_Z (z : Z) : float :=
  match z with
  | Z0 => 0
  | Zpos _ => of_uint63 (Uint63.of_Z z)
  | Zneg _ => - of_uint63 (Uint63.of_Z (Z.opp z))
  end.

(** [np.add.reduce] on a contiguous float64 array is numpy's pairwise
    summation: fewer than 8 numbers are added from left to right; up to
    128 are added into eight running sums, which are then added in pairs,
    and the at most seven numbers left over are added last; a longer
    array is cut in two near the middle, at a multiple of 8 *)
Fixpoint accumulate (blocks : nat) (r rest : list float) : list float :=
  match blocks with
  | O => r
  | S blocks =>
      accumulate blocks (zip_with add r (take 8 rest)) (drop 8 rest)
  end.

Definition sum8 (r : list float) : float :=
  ((nth 0 r 0 + nth 1 r 0) + (nth 2 r 0 + nth 3 r 0))
  + ((nth 4 r 0 + nth 5 r 0) + (nth 6 r 0 + nth 7 r 0)).

Fixpoint pairwise_sum (fuel : nat) (a : list float) : float :=
  let n := length a in
  if (n <? 8)%nat then fold_left add a 0
  else if (n <=? 128)%nat then
    let full := (n - n mod 8)%nat in
    let r := accumulate (full / 8 - 1) (take 8 a) (drop 8 (take full a)) in
    fold_left add (drop full a) (sum8 r)
  else
    match fuel with
    | O => 0
    | S fuel =>
        let n2 := (n / 2)%nat in
        let n2 := (n2 - n2 mod 8)%nat in
        pairwise_sum fuel (take n2 a) + pairwise_sum fuel (drop n2 a)
    end.

Definition np_sum (a : list float) : float := pairwise_sum (length a) a.

(** [pandas.core.nanops] with skipna: a missing entry is not counted and
    is summed as 0 *)
Definition count (values : list float) : Z :=
  Z.of_nat (length (filter (fun x => is_nan x = false) values)).

Definition fill0 (values : list float) : list float :=
  (fun x => if is_nan x then 0 else x) <$> values.

(** [Series.mean()]: the sum over the count *)
Definition nanmean (values : list float) : float :=
  let the_sum := np_sum (fill0 values) in
  if (0 <? count values)%Z then the_sum / of_Z (count values) else nan.

(** [Series.var(ddof)]: NaN unless more than [ddof] values are present,
    else the mean is computed first and the squared deviations from it are
    summed and divided by [count - ddof] *)
Definition nanvar (values : list float) (ddof : Z) : float :=
  if (count values <=? ddof)%Z then nan
  else
    let d := of_Z (count values) - of_Z ddof in
    let avg := np_sum (fill0 values) / of_Z (count values) in
    let sqr :=
      (fun x => if is_nan x then 0 else (avg - x) * (avg - x)) <$> values in
    np_sum sqr / d.

(** [Series.std()]: [ddof = 1] *)
Definition nanstd (values : list float) : float := sqrt (nanvar values 1).

(** [r.dropna()] *)
Definition dropna (values : list float) : list float :=
  filter (fun x => is_nan x = false) values.

(** [src/risk_metrics.py], sharpe_ratio, on the values of [returns] *)
Definition sharpe_ratio (returns : list float) (risk_free_rate : float)
  (trading_days : Z) (annualized : bool) : result float :=
  let r := dropna returns in
  if (nanstd r =? 0) || (length r =? 0)%nat
  then Ok 0
  else
    let mean_daily := nanmean r in
    let std_daily := nanstd r in
    if annualized then
      let excess_annual_return :=
        mean_daily * of_Z trading_days - risk_free_rate in
      let annualized_vol := std_daily * sqrt (of_Z trading_days) in
      if annualized_vol =? 0 then Ok 0
      else Ok (excess_annual_return / annualized_vol)
    else if (trading_days =? 0)%Z then Raise ZeroDivisionError
    else Ok ((mean_daily - risk_free_rate / of_Z trading_days) / std_daily).

(** the float64 nearest to 0.01, what Python reads [0.01] as *)
Definition one_percent : float := 0x1.47ae147ae147bp-7.

End F64.

(** a list of numerals is sorted *)
Ltac sorted_by_lra :=
  repeat first
    [ apply SSorted_nil | apply SSorted_cons
    | apply List.Forall_nil | apply List.Forall_cons | lra ].

(** ** Facts about the float model *)

Module XRFacts.
Import XR.

Lemma sgn_pos r : 0 < r -> sgn r = Gt.
Proof.
  intros H. unfold sgn.
  destruct (Rlt_dec r 0); [lra |]. destruct (Rlt_dec 0 r); [done | lra].
Qed.

Lemma sgn_neg r : r < 0 -> sgn r = Lt.
Proof. intros H. unfold sgn. destruct (Rlt_dec r 0); [done | lra]. Qed.

Lemma sgn_zero : sgn 0 = Eq.
Proof.
  unfold sgn. destruct (Rlt_dec 0 0); [lra |]. reflexivity.
Qed.

Lemma sgn_cases r :
  (r < 0 /\ sgn r = Lt) \/ (r = 0 /\ sgn r = Eq) \/ (0 < r /\ sgn r = Gt).
Proof.
  destruct (Rtotal_order r 0) as [H | [H | H]].
  - left. auto using sgn_neg.
  - right; left. subst. auto using sgn_zero.
  - right; right. auto using sgn_pos.
Qed.

Lemma is_zero_true x : is_zero x = true <-> x = Fin 0.
Proof.
  destruct x; simpl; try (split; discriminate).
  destruct (Req_dec_T r 0); split; congruence.
Qed.

Lemma is_zero_false x : is_zero x = false <-> x <> Fin 0.
Proof.
  rewrite <- is_zero_true. destruct (is_zero x); split; congruence.
Qed.

Lemma div_Fin a b : b <> 0 -> div (Fin a) (Fin b) = Fin (a / b).
Proof. intros H. simpl. destruct (Req_dec_T b 0); [done | reflexivity]. Qed.

Lemma div_Fin_zero a : div (Fin a) (Fin 0) = inf_of (sgn a).
Proof. simpl. destruct (Req_dec_T 0 0); [reflexivity | done]. Qed.

Lemma log_Fin r : 0 < r -> log (Fin r) = Fin (ln r).
Proof. intros H. simpl. by rewrite sgn_pos. Qed.

Lemma log_zero : log (Fin 0) = NInf.
Proof. simpl. by rewrite sgn_zero. Qed.

Lemma sqrt_Fin r : 0 <= r -> sqrt (Fin r) = Fin (R_sqrt.sqrt r).
Proof. intros H. simpl. destruct (Rlt_dec r 0); [lra | reflexivity]. Qed.

Lemma div_NaN_r x : div x NaN = NaN.
Proof. by destruct x. Qed.

(** when the log return of two finite prices is a missing value *)
Lemma log_div_nan c p :
  log (div (Fin c) (Fin p)) = NaN <-> (p = 0 /\ c <= 0) \/ c * p < 0.
Proof.
  destruct (Req_dec_T p 0) as [-> | Hp].
  - rewrite div_Fin_zero.
    destruct (sgn_cases c) as [[H ->] | [[H ->] | [H ->]]]; simpl.
    + split; [intros _; left; split; lra | done].
    + split; [intros _; left; split; lra | done].
    + split; [done | intros [[_ ?] | ?]; lra].
  - rewrite div_Fin by done.
    assert (c = c / p * p) as Hc by (field; done).
    assert (0 < p * p) as Hpp by nra.
    destruct (sgn_cases (c / p)) as [[H E] | [[H E] | [H E]]];
      simpl; rewrite E.
    + split; [intros _; right; nra | done].
    + split; [done | intros [[? _] | ?]; [done | nra]].
    + split; [done | intros [[? _] | ?]; [done | nra]].
Qed.

End XRFacts.

(** ** Rows and columns *)

Section Frames.

Lemma select_rows_cons {A} keep (x : A) l :
  select_rows keep (x :: l) =
  (if keep 0%nat then [x] else []) ++ select_rows (fun i => keep (S i)) l.
Proof.
  unfold select_rows. simpl. rewrite <- fmap_S_seq.
  assert (forall (s : list nat),
    (filter (fun p : nat * A => keep p.1 = true) (zip (S <$> s) l)).*2 =
    (filter (fun p : nat * A => keep (S p.1) = true) (zip s l)).*2) as E.
  { intros s. revert l. induction s as [| i s IH]; intros [| y l]; try done.
    simpl. rewrite !filter_cons. simpl.
    destruct (decide (keep (S i) = true)); simpl; by rewrite IH. }
  rewrite filter_cons. simpl.
  destruct (decide (keep 0%nat = true)) as [-> | Hk]; simpl.
  - by rewrite E.
  - destruct (keep 0%nat); [done |]. by rewrite E.
Qed.

Lemma select_rows_all {A} keep (l : list A) :
  (forall i, (i < length l)%nat -> keep i = true) -> select_rows keep l = l.
Proof.
  revert keep. induction l as [| x l IH]; intros keep H; [done |].
  rewrite select_rows_cons, (H 0%nat) by (simpl; lia). simpl.
  f_equal. apply IH. intros i Hi. apply H. simpl. lia.
Qed.

Lemma select_rows_tail {A} keep (l : list A) :
  keep 0%nat = false ->
  (forall i, (S i < length l)%nat -> keep (S i) = true) ->
  select_rows keep l = tail l.
Proof.
  intros H0 H. destruct l as [| x l]; [done |].
  rewrite select_rows_cons, H0. simpl. apply select_rows_all.
  intros i Hi. apply H. simpl. lia.
Qed.

Lemma select_rows_ext {A} keep keep' (l : list A) :
  (forall i, (i < length l)%nat -> keep i = keep' i) ->
  select_rows keep l = select_rows keep' l.
Proof.
  revert keep keep'. induction l as [| x l IH]; intros keep keep' H; [done |].
  rewrite !select_rows_cons, (H 0%nat) by (simpl; lia). f_equal.
  apply IH. intros i Hi. apply H. simpl. lia.
Qed.

Lemma get_set_col_eq name c cols :
  get_col name (set_col name c cols) = Some c.
Proof.
  induction cols as [| [n c0] cols IH]; simpl.
  - by rewrite String.eqb_refl.
  - destruct (String.eqb n name) eqn:E; simpl; by rewrite E.
Qed.

Lemma get_set_col_ne name name' c cols :
  name <> name' ->
  get_col name' (set_col name c cols) = get_col name' cols.
Proof.
  intros Hne. induction cols as [| [n c0] cols IH]; simpl.
  - destruct (String.eqb_spec name name'); done.
  - destruct (String.eqb_spec n name) as [-> | Hn]; simpl.
    + destruct (String.eqb_spec name name'); done.
    + by rewrite IH.
Qed.

Lemma get_col_fmap (f : list xreal -> list xreal) name cols :
  get_col name ((fun c => (c.1, f c.2)) <$> cols) = f <$> get_col name cols.
Proof.
  induction cols as [| [n c] cols IH]; simpl; [done |].
  destruct (String.eqb n name); done.
Qed.

Lemma get_col_None_other_na name cols i :
  get_col name cols = None -> other_na name cols i = row_has_na cols i.
Proof.
  unfold other_na, row_has_na.
  induction cols as [| [n c] cols IH]; simpl; [done |].
  destruct (String.eqb n name); [done |]. intros H. simpl.
  by rewrite IH.
Qed.

Lemma get_col_Some_elem name cols c :
  get_col name cols = Some c -> (name, c) ∈ cols.
Proof.
  induction cols as [| [n c0] cols IH]; simpl; [done |].
  destruct (String.eqb_spec n name) as [-> | Hn].
  - intros [= ->]. left.
  - intros H. right. auto.
Qed.

Lemma get_col_None_names name cols :
  get_col name cols = None <-> name ∉ cols.*1.
Proof.
  induction cols as [| [n c0] cols IH]; simpl.
  - split; [intros _; apply not_elem_of_nil | done].
  - rewrite not_elem_of_cons.
    destruct (String.eqb_spec n name) as [-> | Hn].
    + split; [done | intros [? _]; done].
    + rewrite IH. split; [intros ?; split; [auto | done] | intros [_ ?]; done].
Qed.

(** a row of the frame with column [name] set to [c] has a missing value
    when another column has one there, or [c] has *)
Lemma row_has_na_set_col name c cols i :
  NoDup cols.*1 ->
  row_has_na (set_col name c cols) i =
  other_na name cols i || XR.is_nan (nth i c NaN).
Proof.
  induction cols as [| [n c0] cols IH]; simpl; intros Hnd.
  - by rewrite orb_false_r.
  - apply NoDup_cons in Hnd as [Hn Hnd].
    destruct (String.eqb_spec n name) as [-> | Hne]; simpl.
    + apply get_col_None_names in Hn.
      rewrite (get_col_None_other_na _ _ _ Hn). unfold row_has_na.
      by rewrite orb_comm.
    + unfold row_has_na in *. simpl. rewrite IH by done.
      unfold other_na. by rewrite orb_assoc.
Qed.

Lemma other_na_set_col_fresh nm name c cols i :
  get_col name cols = None ->
  other_na nm (set_col name c cols) i =
  other_na nm cols i
  || (negb (String.eqb name nm) && XR.is_nan (nth i c NaN)).
Proof.
  unfold other_na.
  induction cols as [| [n c0] cols IH]; simpl; intros Hn.
  - by rewrite orb_false_r.
  - destruct (String.eqb n name); [done |]. simpl.
    rewrite IH by done. by rewrite orb_assoc.
Qed.

Lemma other_na_elem nm src c cols i :
  (src, c) ∈ cols -> src <> nm -> XR.is_nan (nth i c NaN) = true ->
  other_na nm cols i = true.
Proof.
  intros Hin Hne Hnan. unfold other_na. apply existsb_exists.
  exists (src, c). split; [by apply list_elem_of_In |]. simpl.
  rewrite Hnan. by destruct (String.eqb_spec src nm).
Qed.

Lemma other_na_set_col_copy name src c cols i :
  get_col name cols = None -> get_col src cols = Some c ->
  src <> "Log_Return"%string ->
  other_na "Log_Return" (set_col name c cols) i =
  other_na "Log_Return" cols i.
Proof.
  intros Hn Hs Hlr. rewrite other_na_set_col_fresh by done.
  destruct (XR.is_nan (nth i c NaN)) eqn:E.
  - rewrite (other_na_elem _ src c) by eauto using get_col_Some_elem.
    done.
  - by rewrite andb_false_r, orb_false_r.
Qed.

End Frames.

(** ** compute_log_returns *)

Section LogReturns.
Import XR XRFacts.

Lemma log_return_column_cons c close :
  log_return_column (c :: close) =
  NaN :: zip_with (fun c p => log (div c p)) close (c :: close).
Proof.
  unfold log_return_column, shift1. simpl. rewrite div_NaN_r. simpl.
  f_equal. apply zip_with_take_r.
Qed.

Lemma log_return_column_length close :
  length (log_return_column close) = length close.
Proof.
  destruct close as [| c close]; [done |].
  rewrite log_return_column_cons. simpl. rewrite length_zip_with. simpl. lia.
Qed.

Lemma log_return_column_0 close : nth 0 (log_return_column close) NaN = NaN.
Proof.
  destruct close as [| c close]; [done |].
  by rewrite log_return_column_cons.
Qed.

Lemma log_return_column_S close t c p :
  close !! S t = Some c -> close !! t = Some p ->
  nth (S t) (log_return_column close) NaN = log (div c p).
Proof.
  intros Hc Hp. destruct close as [| c0 close]; [done |].
  rewrite log_return_column_cons. simpl in *.
  rewrite nth_lookup, lookup_zip_with, Hc. simpl. by rewrite Hp.
Qed.

Lemma log_div_Fin c p :
  0 < c -> 0 < p -> log (div (Fin c) (Fin p)) = Fin (ln (c / p)).
Proof.
  intros Hc Hp. rewrite div_Fin by lra.
  apply log_Fin. apply Rdiv_lt_0_compat; lra.
Qed.

Lemma zip_log_div_positive cs ps :
  Forall (fun p => 0 < p) cs -> Forall (fun p => 0 < p) ps ->
  zip_with (fun c p => log (div c p)) (Fin <$> cs) (Fin <$> ps) =
  Fin <$> zip_with (fun c p => ln (c / p)) cs ps.
Proof.
  intros Hcs. revert ps.
  induction Hcs as [| c cs Hc Hcs IH]; intros ps Hps; [done |].
  destruct Hps as [| p ps Hp Hps]; [done |].
  rewrite !fmap_cons. cbn [zip_with]. rewrite fmap_cons.
  rewrite IH by done. by rewrite log_div_Fin.
Qed.

Lemma log_return_column_positive prices :
  prices <> [] -> Forall (fun p => 0 < p) prices ->
  log_return_column (Fin <$> prices) = NaN :: (Fin <$> log_returns prices).
Proof.
  intros Hne Hpos. destruct prices as [| p0 prices]; [done |].
  rewrite fmap_cons, log_return_column_cons. f_equal.
  unfold log_returns. simpl tail. rewrite <- fmap_cons.
  apply zip_log_div_positive; [| done].
  by apply Forall_cons in Hpos as [_ ?].
Qed.

Lemma set_col_names_fresh name c cols :
  get_col name cols = None -> (set_col name c cols).*1 = cols.*1 ++ [name].
Proof.
  induction cols as [| [n c0] cols IH]; cbn [set_col get_col]; [done |].
  destruct (String.eqb n name); [done |]. intros H.
  rewrite !fmap_cons, IH by done. done.
Qed.

Lemma set_col_NoDup_fresh name c cols :
  get_col name cols = None -> NoDup cols.*1 -> NoDup (set_col name c cols).*1.
Proof.
  intros Hn Hnd. rewrite set_col_names_fresh by done.
  apply NoDup_app. split; [done |]. split; [| apply NoDup_singleton].
  intros x Hx ->%list_elem_of_singleton.
  by apply get_col_None_names in Hn.
Qed.

(** the frame returned on a source with a price column *)
Lemma compute_log_returns_ok df close :
  NoDup (df_columns df).*1 -> close_column df = Some close ->
  exists out,
    compute_log_returns df = Ok out
    /\ df_index out = select_rows (kept df close) (df_index df)
    /\ df_get out "Log_Return" =
       Some (select_rows (kept df close) (log_return_column close)).
Proof.
  intros Hnd Hclose. unfold compute_log_returns, close_column, df_get in *.
  destruct (get_col "Close" (df_columns df)) as [c |] eqn:EC.
  - injection Hclose as ->. cbv zeta. unfold df_get. rewrite EC.
    eexists. split; [done |].
    unfold df_dropna, df_set, df_get. cbn [df_columns df_index default].
    rewrite get_col_fmap, get_set_col_eq. cbn [fmap option_fmap option_map].
    split; [| f_equal]; apply select_rows_ext; intros i _;
      rewrite row_has_na_set_col by done; unfold kept, notna;
      by rewrite negb_orb.
  - rewrite Hclose. cbv zeta.
    unfold df_set, df_get. cbn [df_columns df_index].
    rewrite get_set_col_eq. eexists. split; [done |].
    unfold df_dropna. cbn [df_columns df_index default].
    rewrite get_col_fmap, get_set_col_eq. cbn [fmap option_fmap option_map].
    split; [| f_equal]; apply select_rows_ext; intros i _;
      rewrite row_has_na_set_col by (by apply set_col_NoDup_fresh);
      rewrite (other_na_set_col_copy "Close" "price") by done;
      unfold kept, notna; by rewrite negb_orb.
Qed.

Lemma compute_log_returns_no_price df :
  close_column df = None ->
  compute_log_returns df = Raise (ValueError "No Close/price column found").
Proof.
  unfold compute_log_returns, close_column, df_get.
  destruct (get_col "Close" (df_columns df)); [done |]. by intros ->.
Qed.

(** which rows are kept, for two consecutive finite prices *)
Lemma kept_finite df close t c p :
  close !! S t = Some (Fin c) -> close !! t = Some (Fin p) ->
  kept df close (S t) = true <->
  other_na "Log_Return" (df_columns df) (S t) = false
  /\ ~ ((p = 0 /\ c <= 0) \/ c * p < 0).
Proof.
  intros Hc Hp. unfold kept.
  rewrite (log_return_column_S _ _ _ _ Hc Hp), andb_true_iff, negb_true_iff.
  rewrite <- log_div_nan. unfold notna.
  destruct (log (div (Fin c) (Fin p))); simpl; intuition congruence.
Qed.

Lemma kept_0 df close : kept df close 0 = false.
Proof.
  unfold kept. rewrite log_return_column_0. simpl. apply andb_false_r.
Qed.

(** the rows kept for a positive price series in a frame without other
    missing values: all but the first *)
Lemma kept_positive df prices i :
  prices <> [] -> Forall (fun p => 0 < p) prices ->
  (forall j, (j < length prices)%nat ->
             other_na "Log_Return" (df_columns df) j = false) ->
  (S i < length prices)%nat ->
  kept df (Fin <$> prices) (S i) = true.
Proof.
  intros Hne Hpos Hna Hi. unfold kept. rewrite Hna by done. simpl.
  rewrite log_return_column_positive by done. simpl.
  rewrite nth_lookup.
  destruct ((Fin <$> log_returns prices) !! i) as [x |] eqn:E.
  - apply list_lookup_fmap_Some in E as (y & -> & _). done.
  - apply lookup_ge_None in E. rewrite length_fmap in E.
    unfold log_returns in E. rewrite length_zip_with in E.
    destruct prices; simpl in *; lia.
Qed.

Lemma close_column_length df close :
  df_wf df -> close_column df = Some close ->
  length close = length (df_index df).
Proof.
  intros Hwf Hclose. unfold close_column, df_get in Hclose.
  assert (exists n, (n, close) ∈ df_columns df) as [n Hin].
  { destruct (get_col "Close" (df_columns df)) eqn:E.
    - injection Hclose as ->. eauto using get_col_Some_elem.
    - eauto using get_col_Some_elem. }
  unfold df_wf in Hwf. rewrite Forall_forall in Hwf.
  by apply Hwf in Hin.
Qed.

(** a positive price series in a frame without other missing values:
    only the first row goes, and the log returns are the textbook ones *)
Lemma compute_log_returns_positive df prices :
  df_ok df -> close_column df = Some (Fin <$> prices) ->
  prices <> [] -> Forall (fun p => 0 < p) prices ->
  (forall j, (j < length prices)%nat ->
             other_na "Log_Return" (df_columns df) j = false) ->
  exists out,
    compute_log_returns df = Ok out
    /\ df_get out "Log_Return" =
         Some (Fin <$> log_returns prices)
    /\ df_index out = tail (df_index df)
    /\ length (df_index out) = (length prices - 1)%nat
    /\ length (log_returns prices) = (length prices - 1)%nat.
Proof.
  intros [Hnd Hwf] Hclose Hne Hpos Hna.
  destruct (compute_log_returns_ok df _ Hnd Hclose)
    as (out & Hout & Hidx & Hlr).
  exists out. split; [done |].
  pose proof (close_column_length _ _ Hwf Hclose) as Hlen.
  rewrite length_fmap in Hlen.
  rewrite Hlr, Hidx.
  rewrite (select_rows_tail _ (log_return_column _)).
  - rewrite log_return_column_positive by done. simpl.
    split; [done |].
    rewrite select_rows_tail; first (split; [done |]).
    + split.
      * destruct (df_index df); simpl in *; lia.
      * unfold log_returns. rewrite length_zip_with.
        destruct prices; simpl; lia.
    + apply kept_0.
    + intros i Hi. apply kept_positive; try done. lia.
  - apply kept_0.
  - intros i Hi. rewrite log_return_column_length, length_fmap in Hi.
    by apply kept_positive.
Qed.

Lemma log_returns_cons p0 p1 rest :
  log_returns (p0 :: p1 :: rest) = ln (p1 / p0) :: log_returns (p1 :: rest).
Proof. reflexivity. Qed.

(** the sum of the log returns telescopes *)
Lemma Rsum_log_returns prices :
  prices <> [] -> Forall (fun p => 0 < p) prices ->
  Rsum (log_returns prices) = ln (List.last prices 0) - ln (hd 0 prices).
Proof.
  intros Hne Hpos. induction Hpos as [| p0 l Hp0 Hl IH]; [done |].
  destruct l as [| p1 rest].
  - simpl. unfold Rsum. simpl. lra.
  - rewrite log_returns_cons. unfold Rsum in *. cbn [foldr].
    rewrite IH by done.
    apply Forall_cons in Hl as [Hp1 _].
    unfold Rdiv. rewrite ln_mult by (auto using Rinv_0_lt_compat).
    rewrite ln_Rinv by done.
    change (List.last (p0 :: p1 :: rest) 0) with (List.last (p1 :: rest) 0).
    simpl hd. lra.
Qed.

Lemma last_positive prices :
  prices <> [] -> Forall (fun p => 0 < p) prices -> 0 < List.last prices 0.
Proof.
  intros Hne Hpos. induction Hpos as [| p0 l Hp0 Hl IH]; [done |].
  destruct l as [| p1 rest]; [done |]. apply IH. done.
Qed.

End LogReturns.


(** ** Reductions on finite data *)

Section Reductions.
Import XR XRFacts.

Lemma values_dropna s : values (dropna s) = dropna_values (values s).
Proof.
  unfold values, dropna, dropna_values.
  induction s as [| [l x] s IH]; [done |].
  rewrite fmap_cons. cbn [snd].
  destruct (decide (notna x = true)).
  - rewrite (filter_cons_True (fun p : label * xreal => notna p.2 = true))
      by done.
    rewrite (filter_cons_True (fun p => notna p = true)) by done.
    rewrite fmap_cons. f_equal. apply IH.
  - rewrite (filter_cons_False (fun p : label * xreal => notna p.2 = true))
      by done.
    rewrite (filter_cons_False (fun p => notna p = true)) by done.
    apply IH.
Qed.

Lemma values_Series_of_array xs : values (Series_of_array xs) = xs.
Proof.
  unfold values, Series_of_array. apply snd_zip.
  by rewrite length_fmap, length_seq.
Qed.

Lemma dropna_values_Fin l : dropna_values (Fin <$> l) = Fin <$> l.
Proof.
  unfold dropna_values. induction l as [| x l IH]; [done |].
  rewrite fmap_cons, filter_cons. simpl.
  destruct (decide (true = true)); [| done]. by rewrite IH.
Qed.

Lemma dropna_values_length xs :
  (length (dropna_values xs) <= length xs)%nat.
Proof. apply length_filter. Qed.

Lemma dropna_length s : length (dropna s) = length (values (dropna s)).
Proof. unfold values. by rewrite length_fmap. Qed.

Lemma xsum_Fin l : xsum (Fin <$> l) = Fin (Rsum l).
Proof.
  unfold xsum, Rsum. induction l as [| x l IH]; [done |].
  rewrite fmap_cons. cbn [foldr]. rewrite IH. reflexivity.
Qed.

Lemma Rsum_nonneg l : Forall (fun x => 0 <= x) l -> 0 <= Rsum l.
Proof.
  induction 1 as [| x l Hx _ IH]; simpl; [lra |]. unfold Rsum in *. lra.
Qed.

Lemma sum_sq_dev_nonneg l : 0 <= sum_sq_dev l.
Proof.
  unfold sum_sq_dev. apply Rsum_nonneg. apply Forall_fmap, Forall_forall.
  intros x _. simpl. generalize (x - Rmean l). intros d. nra.
Qed.

Lemma INR_length_pos {A} (l : list A) : l <> [] -> 0 < INR (length l).
Proof.
  intros H. destruct l; [done |]. apply lt_0_INR. simpl. lia.
Qed.

Lemma series_mean_Fin l :
  l <> [] -> series_mean (Fin <$> l) = Fin (Rmean l).
Proof.
  intros H. unfold series_mean, of_nat.
  rewrite dropna_values_Fin, xsum_Fin, length_fmap.
  apply div_Fin. apply INR_length_pos in H. lra.
Qed.

(** pandas' variance on finite data is the textbook one *)
Lemma series_var_Fin ddof l :
  (ddof < length l)%nat ->
  series_var ddof (Fin <$> l) =
  Fin (sum_sq_dev l / INR (length l - ddof)).
Proof.
  intros Hlen. unfold series_var.
  rewrite dropna_values_Fin, length_fmap.
  destruct (Nat.leb_spec (length l) ddof); [lia |].
  assert (0 < INR (length l)) by (apply lt_0_INR; lia).
  assert (0 < INR (length l - ddof)) by (apply lt_0_INR; lia).
  unfold of_nat. rewrite xsum_Fin, div_Fin by lra.
  fold (Rmean l).
  assert (sq_dev (Fin (Rmean l)) <$> (Fin <$> l) =
          Fin <$> ((fun x => (x - Rmean l) * (x - Rmean l)) <$> l)) as ->.
  { rewrite <- !list_fmap_compose. apply list_fmap_ext. intros i x _.
    simpl. unfold sq_dev. simpl. f_equal. ring. }
  rewrite xsum_Fin. fold (sum_sq_dev l). apply div_Fin. lra.
Qed.

Lemma series_std_Fin ddof l :
  (ddof < length l)%nat ->
  series_std ddof (Fin <$> l) =
  Fin (R_sqrt.sqrt (sum_sq_dev l / INR (length l - ddof))).
Proof.
  intros Hlen. unfold series_std. rewrite series_var_Fin by done.
  apply sqrt_Fin. apply Rmult_le_pos; [apply sum_sq_dev_nonneg |].
  left. apply Rinv_0_lt_compat, lt_0_INR. lia.
Qed.

Lemma series_std_population l :
  l <> [] -> series_std 0 (Fin <$> l) = Fin (population_std l).
Proof.
  intros H. rewrite series_std_Fin by (destruct l; simpl; [done | lia]).
  by rewrite Nat.sub_0_r.
Qed.

Lemma series_std_sample l :
  (2 <= length l)%nat -> series_std 1 (Fin <$> l) = Fin (sample_std l).
Proof.
  intros H. rewrite series_std_Fin by lia. unfold sample_std.
  rewrite minus_INR by lia. done.
Qed.

(** fewer than two observations: the sample deviation is NaN, not 0 *)
Lemma series_std_short xs :
  (length (dropna_values xs) <= 1)%nat -> series_std 1 xs = NaN.
Proof.
  intros H. unfold series_std, series_var.
  destruct (Nat.leb_spec (length (dropna_values xs)) 1); [done | lia].
Qed.

Lemma Rsum_replicate n c : Rsum (replicate n c) = INR n * c.
Proof.
  induction n as [| n IH]; [simpl; lra |].
  rewrite S_INR. simpl. unfold Rsum in *. simpl. rewrite IH. lra.
Qed.

Lemma sum_sq_dev_replicate n c : sum_sq_dev (replicate n c) = 0.
Proof.
  destruct n as [| n]; [reflexivity |].
  unfold sum_sq_dev, Rmean. rewrite Rsum_replicate, length_replicate.
  assert (0 < INR (S n)) by (apply lt_0_INR; lia).
  replace (INR (S n) * c / INR (S n)) with c by (field; lra).
  rewrite fmap_replicate, Rsum_replicate. lra.
Qed.

(** a constant series has sample deviation exactly 0 *)
Lemma series_std_constant n c :
  (2 <= n)%nat -> series_std 1 (replicate n (Fin c)) = Fin 0.
Proof.
  intros H. rewrite <- fmap_replicate.
  rewrite series_std_sample by (by rewrite length_replicate).
  unfold sample_std. rewrite sum_sq_dev_replicate.
  unfold Rdiv. by rewrite Rmult_0_l, sqrt_0.
Qed.

End Reductions.

(** ** Claims on compute_log_returns *)

Section LogReturnClaims.
Import XR XRFacts.

Lemma zero_price_log_returns :
  log_return_column [Fin 100; Fin 0; Fin 50] = [NaN; NInf; PInf].
Proof.
  rewrite log_return_column_cons. cbn [zip_with].
  rewrite (div_Fin 0 100) by lra. rewrite div_Fin_zero.
  replace (0 / 100) with 0 by lra. rewrite log_zero.
  rewrite sgn_pos by lra. reflexivity.
Qed.

(** C1, as stated, fails: a zero price is neither missing nor dropped.
    On the prices 100, 0, 50 the rows of labels 1 and 2 are both returned,
    the first with the non-positive price 0, and their log returns are
    -inf and +inf. *)
Lemma compute_log_returns_keeps_zero_price :
  compute_log_returns zero_price_frame =
    Ok {| df_index := [1; 2]%Z;
          df_columns := [("Close"%string, [Fin 0; Fin 50]);
                         ("Log_Return"%string, [NInf; PInf])] |}.
Proof.
  unfold compute_log_returns, zero_price_frame, df_get, df_set.
  cbn -[log_return_column df_dropna].
  rewrite zero_price_log_returns. reflexivity.
Qed.

(** C1 (amended).  On a frame with a price column, compute_log_returns
    returns the rows in which no column, the new Log_Return column
    ln(Close[t] / Close[t-1]) included, holds a NaN.  Row 0 is always
    dropped, and so is a row with a missing price on either side.  For two
    finite prices c = Close[t] and p = Close[t-1] the row is dropped exactly
    when c * p < 0, or p = 0 and c <= 0; a zero price over a non-zero one
    (-inf), a positive price over a zero one (+inf) and two negative prices
    (an ordinary value) are kept.  For n >= 1 strictly positive prices, in a
    frame with no missing value elsewhere, the result has exactly n - 1
    rows, holding ln(price[t] / price[t-1]) for t = 1 .. n-1. *)
Theorem compute_log_returns_spec (df : DataFrame) (close : list xreal) :
  df_ok df -> close_column df = Some close ->
  exists out,
    compute_log_returns df = Ok out
    /\ df_index out = select_rows (kept df close) (df_index df)
    /\ df_get out "Log_Return" =
         Some (select_rows (kept df close) (log_return_column close))
    /\ kept df close 0 = false
    /\ (forall t c p,
          close !! S t = Some c -> close !! t = Some p ->
          (kept df close (S t) = true <->
             other_na "Log_Return" (df_columns df) (S t) = false
             /\ log (div c p) <> NaN)
          /\ (c = NaN \/ p = NaN -> kept df close (S t) = false))
    /\ (forall t c p,
          close !! S t = Some (Fin c) -> close !! t = Some (Fin p) ->
          kept df close (S t) = true <->
            other_na "Log_Return" (df_columns df) (S t) = false
            /\ ~ ((p = 0 /\ c <= 0) \/ c * p < 0))
    /\ (forall prices,
          close = Fin <$> prices -> prices <> [] ->
          Forall (fun p => 0 < p) prices ->
          (forall j, (j < length prices)%nat ->
                     other_na "Log_Return" (df_columns df) j = false) ->
          df_get out "Log_Return" =
            Some (Fin <$> log_returns prices)
          /\ df_index out = tail (df_index df)
          /\ length (df_index out) = (length prices - 1)%nat
          /\ length (log_returns prices) = (length prices - 1)%nat).
Proof.
  intros [Hnd Hwf] Hclose.
  destruct (compute_log_returns_ok df close Hnd Hclose)
    as (out & Hout & Hidx & Hlr).
  exists out. split; [done |]. split; [done |]. split; [done |].
  split; [apply kept_0 |]. split; [| split].
  - intros t c p Hc Hp. unfold kept.
    rewrite (log_return_column_S _ _ _ _ Hc Hp). split.
    + rewrite andb_true_iff, negb_true_iff. unfold notna.
      destruct (log (div c p)); simpl; intuition congruence.
    + intros [-> | ->]; [| rewrite div_NaN_r]; simpl; apply andb_false_r.
  - intros t c p. apply kept_finite.
  - intros prices -> Hne Hpos Hna.
    destruct (compute_log_returns_positive df prices)
      as (out' & Hout' & H); try done.
    rewrite Hout in Hout'. by injection Hout' as <-.
Qed.

(** the five-day scenario of the specification: four log returns *)
Lemma compute_log_returns_spec_witness :
  exists out,
    compute_log_returns five_day_frame = Ok out
    /\ df_index out = [1; 2; 3; 4]%Z
    /\ df_get out "Log_Return" =
         Some (Fin <$> log_returns [100; 105; 102; 108; 110]).
Proof.
  destruct (compute_log_returns_spec five_day_frame
              (Fin <$> [100; 105; 102; 108; 110]))
    as (out & Hout & _ & _ & _ & _ & _ & Hpos).
  - split.
    + apply (bool_decide_unpack _). reflexivity.
    + repeat constructor.
  - reflexivity.
  - exists out. split; [exact Hout |].
    destruct (Hpos [100; 105; 102; 108; 110]) as (Hlr & Hidx & _).
    + reflexivity.
    + discriminate.
    + repeat constructor; lra.
    + intros j Hj. unfold other_na. simpl in *.
      do 5 (destruct j as [| j]; [reflexivity |]). lia.
    + split; [exact Hidx | exact Hlr].
Defined.

(** C9.  For strictly positive prices with no missing value, the log
    returns produced by compute_log_returns sum to ln(last) - ln(first):
    the exponential of their sum is price[last] / price[first], exactly
    on real numbers. *)
Theorem log_returns_telescope (df : DataFrame) (prices : list R) :
  df_ok df -> close_column df = Some (Fin <$> prices) ->
  prices <> [] -> Forall (fun p => 0 < p) prices ->
  (forall j, (j < length prices)%nat ->
             other_na "Log_Return" (df_columns df) j = false) ->
  exists out lr,
    compute_log_returns df = Ok out
    /\ df_get out "Log_Return" = Some (Fin <$> lr)
    /\ xsum (Fin <$> lr) = Fin (Rsum lr)
    /\ exp (Rsum lr) = List.last prices 0 / hd 0 prices.
Proof.
  intros Hok Hclose Hne Hpos Hna.
  destruct (compute_log_returns_positive df prices)
    as (out & Hout & Hlr & _); try done.
  exists out, (log_returns prices). split; [done |]. split; [done |].
  split; [apply xsum_Fin |].
  rewrite Rsum_log_returns by done.
  pose proof (last_positive prices Hne Hpos) as Hlast.
  assert (0 < hd 0 prices) as Hhd.
  { destruct Hpos; [done | done]. }
  unfold Rminus. rewrite exp_plus, exp_Ropp, !exp_ln by done. done.
Qed.

(** the five-day scenario: the returns multiply up to 110 / 100 *)
Lemma log_returns_telescope_witness :
  exists out lr,
    compute_log_returns five_day_frame = Ok out
    /\ df_get out "Log_Return" = Some (Fin <$> lr)
    /\ exp (Rsum lr) = 110 / 100.
Proof.
  destruct (log_returns_telescope five_day_frame [100; 105; 102; 108; 110])
    as (out & lr & Hout & Hlr & _ & Hexp).
  - split.
    + apply (bool_decide_unpack _). reflexivity.
    + repeat constructor.
  - reflexivity.
  - discriminate.
  - repeat constructor; lra.
  - intros j Hj. unfold other_na. simpl in *.
    do 5 (destruct j as [| j]; [reflexivity |]). lia.
  - exists out, lr. split; [exact Hout |]. split; [exact Hlr |].
    rewrite Hexp. reflexivity.
Defined.

End LogReturnClaims.

(** ** Claims on sharpe_ratio and volatility *)

Section SharpeClaims.

Lemma non_missing_length returns :
  length (dropna (as_series returns)) = length (non_missing returns).
Proof. apply dropna_length. Qed.

Lemma non_missing_array xs : non_missing (PyArray xs) = dropna_values xs.
Proof.
  unfold non_missing. simpl.
  by rewrite values_dropna, values_Series_of_array.
Qed.

(** The guard in exact arithmetic: when no return is left after dropping
    the missing ones, or when their sample standard deviation is exactly
    zero, sharpe_ratio returns 0.0, whatever the risk-free rate, the number
    of trading days and the annualized flag are. *)
Lemma sharpe_ratio_degenerate (returns : PyReturns) (risk_free_rate : xreal)
    (trading_days : Z) (annualized : bool) :
  non_missing returns = [] \/ series_std 1 (non_missing returns) = Fin 0 ->
  sharpe_ratio returns risk_free_rate trading_days annualized = Ok (Fin 0).
Proof.
  intros H. unfold sharpe_ratio. cbv zeta.
  rewrite non_missing_length. fold (non_missing returns).
  destruct H as [-> | ->]; [done |].
  simpl. destruct (Req_dec_T 0 0); done.
Qed.

(** in exact arithmetic every constant series of two or more returns is
    caught by the guard *)
Lemma sharpe_ratio_constant_exact (n : nat) (c : R) (risk_free_rate : xreal)
    (trading_days : Z) (annualized : bool) :
  (2 <= n)%nat ->
  sharpe_ratio (PyArray (replicate n (Fin c))) risk_free_rate trading_days
    annualized = Ok (Fin 0).
Proof.
  intros Hn. apply sharpe_ratio_degenerate. right.
  rewrite non_missing_array, <- fmap_replicate, dropna_values_Fin.
  rewrite fmap_replicate. by apply series_std_constant.
Qed.

(** C10.  With exactly one non-missing return the sample standard
    deviation is NaN; NaN == 0 is false, so the guard is passed and the NaN
    reaches the quotient: sharpe_ratio returns NaN, not 0.0.  (The daily
    form divides the risk-free rate by trading_days first, hence the side
    condition.) *)
Theorem sharpe_ratio_single_return (returns : PyReturns) (x : xreal)
    (risk_free_rate : xreal) (trading_days : Z) (annualized : bool) :
  non_missing returns = [x] ->
  (annualized = false -> trading_days <> 0%Z) ->
  series_std 1 (non_missing returns) = NaN
  /\ sharpe_ratio returns risk_free_rate trading_days annualized = Ok NaN.
Proof.
  intros Hx Htd.
  assert (series_std 1 (non_missing returns) = NaN) as Hstd.
  { apply series_std_short. rewrite Hx.
    etrans; [apply dropna_values_length | done]. }
  split; [done |]. unfold sharpe_ratio. cbv zeta.
  rewrite non_missing_length. fold (non_missing returns).
  rewrite Hstd, Hx. simpl. destruct annualized; simpl.
  - by rewrite XRFacts.div_NaN_r.
  - destruct (Z.eqb_spec trading_days 0); [by apply Htd in e |].
    by rewrite XRFacts.div_NaN_r.
Qed.

Lemma sharpe_ratio_single_return_witness :
  sharpe_ratio (PyArray [Fin (1 / 100)]) default_risk_free_rate
    default_trading_days true = Ok NaN.
Proof.
  apply (sharpe_ratio_single_return _ (Fin (1 / 100))).
  - rewrite non_missing_array. reflexivity.
  - discriminate.
Defined.

Lemma sample_std_pos l :
  (2 <= length l)%nat -> sample_std l <> 0 -> 0 < sum_sq_dev l.
Proof.
  intros Hlen Hne. destruct (sum_sq_dev_nonneg l) as [H | H]; [done |].
  exfalso. apply Hne. unfold sample_std. rewrite <- H.
  unfold Rdiv. by rewrite Rmult_0_l, sqrt_0.
Qed.

(** the two deviations differ on every sample that is not constant *)
Lemma population_lt_sample l :
  (2 <= length l)%nat -> sample_std l <> 0 ->
  population_std l < sample_std l.
Proof.
  intros Hlen Hne. pose proof (sample_std_pos l Hlen Hne) as Hpos.
  assert (2 <= INR (length l)) as Hn by (apply (le_INR 2); lia).
  unfold population_std, sample_std. apply sqrt_lt_1_alt. split.
  - apply Rmult_le_pos; [lra |]. left. apply Rinv_0_lt_compat. lra.
  - unfold Rdiv. apply Rmult_lt_compat_l; [done |].
    apply Rinv_lt_contravar; [nra | lra].
Qed.

Lemma sharpe_annualized_formula returns risk_free_rate trading_days :
  non_missing returns <> [] ->
  series_std 1 (non_missing returns) <> Fin 0 ->
  sharpe_ratio returns risk_free_rate trading_days true =
    Ok (if XR.is_zero (XR.mul (series_std 1 (non_missing returns))
                              (XR.sqrt (XR.of_Z trading_days)))
        then Fin 0
        else XR.div
               (XR.sub (XR.mul (series_mean (non_missing returns))
                               (XR.of_Z trading_days)) risk_free_rate)
               (XR.mul (series_std 1 (non_missing returns))
                       (XR.sqrt (XR.of_Z trading_days)))).
Proof.
  intros Hne Hstd. unfold sharpe_ratio. cbv zeta.
  rewrite non_missing_length. fold (non_missing returns).
  apply XRFacts.is_zero_false in Hstd. rewrite Hstd.
  destruct (non_missing returns) eqn:E; [done |]. simpl length.
  cbn [Nat.eqb orb]. by destruct (XR.is_zero (XR.mul _ _)).
Qed.

(** C5.  Past the degenerate-case guard, the annualized form returns
    (mean * trading_days - risk_free_rate) / (std * sqrt trading_days),
    or 0.0 when that denominator is exactly zero, where std is the sample
    standard deviation (denominator n - 1).  On n >= 2 finite returns that
    is the textbook formula, while volatility uses the population
    deviation (denominator n) of the same data, which is strictly
    smaller. *)
Theorem sharpe_ratio_annualized (returns : PyReturns) (risk_free_rate : xreal)
    (trading_days : Z) :
  non_missing returns <> [] ->
  series_std 1 (non_missing returns) <> Fin 0 ->
  let mean := series_mean (non_missing returns) in
  let std := series_std 1 (non_missing returns) in
  let annualized_vol := XR.mul std (XR.sqrt (XR.of_Z trading_days)) in
  sharpe_ratio returns risk_free_rate trading_days true =
    Ok (if XR.is_zero annualized_vol then Fin 0
        else XR.div
               (XR.sub (XR.mul mean (XR.of_Z trading_days)) risk_free_rate)
               annualized_vol)
  /\ (forall l,
        non_missing returns = Fin <$> l -> (2 <= length l)%nat ->
        std = Fin (sample_std l)
        /\ mean = Fin (Rmean l)
        /\ (forall TD, (volatility TD (as_series returns)).1 =
                         Fin (population_std l))
        /\ population_std l < sample_std l
        /\ (forall rf, risk_free_rate = Fin rf -> (0 < trading_days)%Z ->
              sharpe_ratio returns risk_free_rate trading_days true =
                Ok (Fin ((Rmean l * IZR trading_days - rf)
                         / (sample_std l * sqrt (IZR trading_days)))))).
Proof.
  intros Hne Hstd mean std annualized_vol.
  assert (sharpe_ratio returns risk_free_rate trading_days true =
    Ok (if XR.is_zero annualized_vol then Fin 0
        else XR.div
               (XR.sub (XR.mul mean (XR.of_Z trading_days)) risk_free_rate)
               annualized_vol)) as Hsr.
  { by apply sharpe_annualized_formula. }
  split; [done |]. intros l Hl Hlen.
  assert (std = Fin (sample_std l)) as Es.
  { unfold std. rewrite Hl. by apply series_std_sample. }
  assert (mean = Fin (Rmean l)) as Em.
  { unfold mean. rewrite Hl. apply series_mean_Fin.
    destruct l; simpl in *; [lia | done]. }
  assert (sample_std l <> 0) as Hs0.
  { intros E. apply Hstd. fold std. by rewrite Es, E. }
  split; [done |]. split; [done |]. split; [| split].
  - intros TD. unfold volatility. simpl. fold (non_missing returns).
    rewrite Hl. apply series_std_population.
    destruct l; simpl in *; [lia | done].
  - by apply population_lt_sample.
  - intros rf -> Htd. rewrite Hsr. unfold annualized_vol.
    rewrite Es, Em. unfold XR.of_Z.
    assert (0 < IZR trading_days) as Hpos by (by apply IZR_lt).
    rewrite XRFacts.sqrt_Fin by lra. simpl.
    assert (0 < sqrt (IZR trading_days)) by (by apply sqrt_lt_R0).
    destruct (Req_dec_T (sample_std l * sqrt (IZR trading_days)) 0) as [E | E].
    + apply Rmult_integral in E as [E | E]; [done | lra].
    + done.
Qed.

Lemma sum_sq_dev_1_3 : sum_sq_dev [1; 3] = 2.
Proof. unfold sum_sq_dev, Rmean, Rsum. simpl. field. Qed.

Lemma sample_std_1_3 : sample_std [1; 3] = sqrt 2.
Proof.
  unfold sample_std. rewrite sum_sq_dev_1_3. simpl. f_equal. field.
Qed.

Lemma population_std_1_3 : population_std [1; 3] = 1.
Proof.
  unfold population_std. rewrite sum_sq_dev_1_3. simpl.
  replace (2 / (1 + 1)) with 1 by field. apply sqrt_1.
Qed.

(** the returns 1 and 3: sample deviation sqrt 2, population deviation 1 *)
Lemma sharpe_ratio_annualized_witness :
  sharpe_ratio (PyArray [Fin 1; Fin 3]) (Fin (1 / 100)) 252 true =
    Ok (Fin ((Rmean [1; 3] * 252 - 1 / 100) / (sample_std [1; 3] * sqrt 252)))
  /\ (volatility 252 (Series_of_array [Fin 1; Fin 3])).1 =
       Fin (population_std [1; 3])
  /\ population_std [1; 3] < sample_std [1; 3].
Proof.
  assert (non_missing (PyArray [Fin 1; Fin 3]) = Fin <$> [1; 3]) as Hnm.
  { rewrite non_missing_array. apply (dropna_values_Fin [1; 3]). }
  destruct (sharpe_ratio_annualized (PyArray [Fin 1; Fin 3])
              (Fin (1 / 100)) 252) as [_ H].
  - by rewrite Hnm.
  - rewrite Hnm, series_std_sample by (simpl; lia).
    rewrite sample_std_1_3. intros [= E].
    pose proof (sqrt_lt_R0 2). lra.
  - destruct (H [1; 3] Hnm) as (_ & _ & Hvol & Hlt & Hsr); [simpl; lia |].
    split; [by apply Hsr |]. split; [apply Hvol | exact Hlt].
Defined.

Lemma sqrt_1008 : sqrt 1008 = 2 * sqrt 252.
Proof.
  replace 1008 with (2 * 2 * 252) by lra.
  rewrite sqrt_mult by lra. by rewrite sqrt_square by lra.
Qed.

(** scaling a float by sqrt 1008 is doubling its scaling by sqrt 252 *)
Lemma mul_sqrt_1008 x :
  XR.mul x (XR.sqrt (XR.of_Z 1008)) =
  XR.mul (Fin 2) (XR.mul x (XR.sqrt (XR.of_Z 252))).
Proof.
  unfold XR.of_Z. rewrite !XRFacts.sqrt_Fin by lra. rewrite sqrt_1008.
  assert (0 < sqrt 252) as H by (apply sqrt_lt_R0; lra).
  destruct x; simpl; try done;
    repeat (rewrite XRFacts.sgn_pos by lra; simpl); try done.
  f_equal. ring.
Qed.

(** C3.  volatility returns the population standard deviation of the
    non-missing returns as the daily figure and that figure times
    sqrt(TRADING_DAYS) as the annual one; on finite data the daily figure
    is the textbook n-denominator deviation; and going from 252 to 1008
    trading days multiplies the annual figure by exactly 2. *)
Theorem volatility_spec (returns : Series) :
  (forall TD,
     volatility TD returns =
       (series_std 0 (values (dropna returns)),
        XR.mul (series_std 0 (values (dropna returns)))
               (XR.sqrt (XR.of_Z TD))))
  /\ (forall TD l,
        values (dropna returns) = Fin <$> l -> l <> [] ->
        (volatility TD returns).1 = Fin (population_std l)
        /\ ((0 <= TD)%Z ->
             (volatility TD returns).2 =
               Fin (population_std l * sqrt (IZR TD))))
  /\ (volatility 1008 returns).2 =
       XR.mul (Fin 2) (volatility 252 returns).2.
Proof.
  split; [done |]. split.
  - intros TD l Hl Hne. unfold volatility. cbn [fst snd]. rewrite Hl.
    rewrite series_std_population by done. split; [done |].
    intros HTD. unfold XR.of_Z.
    rewrite XRFacts.sqrt_Fin by (by apply IZR_le). done.
  - unfold volatility. cbn [fst snd]. apply mul_sqrt_1008.
Qed.

Lemma volatility_spec_witness :
  (volatility 252 (Series_of_array [Fin 1; Fin 3])).1 = Fin 1
  /\ (volatility 252 (Series_of_array [Fin 1; Fin 3])).2 = Fin (sqrt 252)
  /\ (volatility 1008 (Series_of_array [Fin 1; Fin 3])).2 =
       Fin (2 * sqrt 252).
Proof.
  destruct (volatility_spec (Series_of_array [Fin 1; Fin 3]))
    as (_ & Hfin & Hscale).
  destruct (Hfin 252%Z [1; 3]) as [Hd Ha].
  - rewrite values_dropna, values_Series_of_array.
    apply (dropna_values_Fin [1; 3]).
  - discriminate.
  - rewrite population_std_1_3 in Hd, Ha.
    split; [exact Hd |].
    assert ((volatility 252 (Series_of_array [Fin 1; Fin 3])).2 =
            Fin (sqrt 252)) as Ha'.
    { rewrite Ha by lia. f_equal. lra. }
    split; [exact Ha' |]. rewrite Hscale, Ha'. reflexivity.
Defined.

End SharpeClaims.

(** ** The guard of sharpe_ratio in binary64 *)

Section SharpeBinary64.
Import PrimFloat.
Local Open Scope float_scope.

(** C2 (defect).  The claim's own example, ten returns of 0.01 with the
    risk-free rate 0.01 and 252 trading days, in the arithmetic of the
    machine: the mean of the ten returns is rounded to
    0.009999999999999998, so their sample deviation comes out as 1.83e-18
    and not as 0; the guard [r.std() == 0] is passed and sharpe_ratio
    returns 8.646979910559064e16 (5447085341693052 in the daily form), where
    exact arithmetic, and the claim, give 0.0. *)
Theorem sharpe_ratio_constant_series_binary64 :
  let returns := replicate 10 F64.one_percent in
  F64.one_percent = F64.of_Z 1 / F64.of_Z 100
  /\ F64.nanmean returns = 0x1.47ae147ae147ap-7
  /\ F64.nanstd returns = 0x1.0dd90273c3ce2p-59
  /\ F64.sharpe_ratio returns F64.one_percent 252 true
     = Ok 86469799105590640
  /\ F64.sharpe_ratio returns F64.one_percent 252 false
     = Ok 5447085341693052
  /\ sharpe_ratio (PyArray (replicate 10 (Fin (1 / 100)%R)))
       (Fin (1 / 100)%R) 252 true = Ok (Fin 0%R).
Proof.
  cbv zeta.
  split; [vm_compute; reflexivity |].
  split; [vm_compute; reflexivity |].
  split; [vm_compute; reflexivity |].
  split; [vm_compute; reflexivity |].
  split; [vm_compute; reflexivity |].
  apply sharpe_ratio_constant_exact. lia.
Qed.

End SharpeBinary64.

(** ** Quantiles and value at risk *)

#[global] Instance xle_trans : Transitive XR.le.
Proof.
  intros [| | | a] [| | | b] [| | | c]; simpl; try tauto. apply Rle_trans.
Qed.

#[global] Instance xle_total : Total XR.le.
Proof.
  intros [| | | a] [| | | b]; simpl; try tauto.
  destruct (Rle_lt_dec a b); [left | right]; lra.
Qed.

#[global] Instance xle_antisymm : AntiSymm (=) XR.le.
Proof.
  intros [| | | a] [| | | b]; simpl; try tauto.
  intros H1 H2. f_equal. lra.
Qed.

Section Quantile.

Lemma existsb_is_nan_Fin l : existsb XR.is_nan (Fin <$> l) = false.
Proof. induction l as [| x l IH]; [done |]. rewrite fmap_cons. simpl. done. Qed.

(** sorting finite floats is sorting the reals they carry *)
Lemma merge_sort_Fin l s :
  s ≡ₚ l -> StronglySorted Rle s ->
  merge_sort XR.le (Fin <$> l) = Fin <$> s.
Proof.
  intros Hperm Hsorted. apply (StronglySorted_unique XR.le).
  - apply StronglySorted_merge_sort; apply _.
  - by apply (StronglySorted_fmap Fin Rle XR.le).
  - rewrite merge_sort_Permutation. by apply fmap_Permutation.
Qed.

Lemma lerp_Fin a b t : lerp (Fin a) (Fin b) t = Fin (a + t * (b - a)).
Proof.
  unfold lerp. destruct (Rle_dec (1 / 2) t); simpl; f_equal; ring.
Qed.

Lemma nth_Fin i s d :
  (i < length s)%nat -> nth i (Fin <$> s) NaN = Fin (nth i s d).
Proof.
  intros Hi. rewrite !nth_lookup, list_lookup_fmap.
  destruct (lookup_lt_is_Some_2 s i Hi) as [x ->]. done.
Qed.

(** the linear quantile of finite data, read off any sorted arrangement
    of it: with q (n - 1) = j + g, the j-th value plus g times the gap
    to the next *)
Lemma quantile_linear_Fin l s q j g :
  l <> [] -> 0 <= q <= 1 ->
  s ≡ₚ l -> StronglySorted Rle s ->
  q * (INR (length l) - 1) = INR j + g -> 0 <= g < 1 ->
  quantile_linear (Fin <$> l) q =
  Fin (nth j s 0 + g * (nth (S j) s (nth j s 0) - nth j s 0)).
Proof.
  intros Hne Hq Hperm Hsorted Hidx Hg. unfold quantile_linear.
  rewrite existsb_is_nan_Fin, (merge_sort_Fin l s) by done.
  rewrite length_fmap. rewrite (Permutation_length Hperm). cbv zeta.
  assert (1 <= INR (length l)) as Hn.
  { apply (le_INR 1). destruct l; simpl; [done | lia]. }
  assert (j < length l)%nat as Hj.
  { apply INR_lt.
    assert (q * (INR (length l) - 1) <= 1 * (INR (length l) - 1))
      by (apply Rmult_le_compat_r; lra).
    lra. }
  destruct (Int_part_frac_part_spec (q * (INR (length l) - 1))
              (Z.of_nat j) g Hg) as [<- <-].
  { by rewrite <- INR_IZR_INZ. }
  rewrite Nat2Z.id.
  rewrite <- (Permutation_length Hperm) in Hj |- *.
  rewrite (nth_Fin j s 0) by done.
  destruct (decide (j + 1 <= length s - 1)%nat) as [Hnext | Hlast].
  - rewrite Nat.min_l by done.
    rewrite (nth_Fin (j + 1) s (nth j s 0)) by lia.
    rewrite lerp_Fin. by rewrite Nat.add_1_r.
  - rewrite Nat.min_r by lia.
    replace (length s - 1)%nat with j by lia.
    rewrite (nth_Fin j s 0) by done.
    rewrite (nth_overflow s (n := S j)) by lia. by rewrite lerp_Fin.
Qed.

Lemma var_example_sorted : StronglySorted Rle var_example_returns.
Proof.
  unfold var_example_returns. sorted_by_lra.
Qed.

Lemma historical_var_empty returns level :
  values (dropna returns) = [] -> historical_var returns level = Ok (Fin 0).
Proof.
  intros H. unfold historical_var. by rewrite dropna_length, H.
Qed.

Lemma historical_var_Fin returns l s q j g :
  values (dropna returns) = Fin <$> l -> l <> [] -> 0 <= q <= 1 ->
  s ≡ₚ l -> StronglySorted Rle s ->
  q * (INR (length l) - 1) = INR j + g -> 0 <= g < 1 ->
  historical_var returns (Fin q) =
  Ok (Fin (- (nth j s 0 + g * (nth (S j) s (nth j s 0) - nth j s 0)))).
Proof.
  intros Hl Hne Hq Hperm Hsorted Hidx Hg. unfold historical_var.
  rewrite dropna_length, Hl, length_fmap.
  destruct l as [| x l']; [done |]. cbn [length Nat.eqb].
  unfold np_quantile.
  destruct (Rle_dec 0 q); [| lra]. destruct (Rle_dec q 1); [| lra].
  by rewrite (quantile_linear_Fin _ s q j g).
Qed.

(** the worked example: the 20th percentile lies 0.8 of the way from
    -0.05 to -0.02, so the value at risk is 0.026 *)
Lemma historical_var_example :
  historical_var (Series_of_array (Fin <$> var_example_returns))
    (Fin (2 / 10)) = Ok (Fin (26 / 1000)).
Proof.
  rewrite (historical_var_Fin _ var_example_returns var_example_returns
             (2 / 10) 0 (8 / 10)).
  - unfold var_example_returns. simpl. do 2 f_equal. lra.
  - rewrite values_dropna, values_Series_of_array.
    apply dropna_values_Fin.
  - discriminate.
  - lra.
  - done.
  - apply var_example_sorted.
  - unfold var_example_returns. simpl. lra.
  - lra.
Qed.

(** C4, as stated, fails on its own example: for the returns
    -0.05, -0.02, 0, 0.01, 0.03 and level 0.2 the function returns 0.026,
    which is 0.012 away from the 0.038 of the claim. *)
Lemma historical_var_example_not_0038 :
  historical_var (Series_of_array (Fin <$> var_example_returns))
    (Fin (2 / 10)) = Ok (Fin (26 / 1000))
  /\ 1 / 100 < Rabs (26 / 1000 - 38 / 1000).
Proof.
  split; [apply historical_var_example |].
  rewrite Rabs_left by lra. lra.
Qed.

(** C4 (amended).  historical_var returns 0.0 when no return is left after
    dropping the missing ones.  Otherwise, for a level q in [0, 1] and n
    finite returns sorted as s, with q (n - 1) = j + g and 0 <= g < 1, it
    returns - (s[j] + g (s[j+1] - s[j])), the negated linear-interpolation
    quantile; a level outside [0, 1] raises ValueError.  For the returns
    -0.05, -0.02, 0, 0.01, 0.03 and level 0.2 the result is 0.026. *)
Theorem historical_var_spec (returns : Series) (level : xreal) :
  (values (dropna returns) = [] -> historical_var returns level = Ok (Fin 0))
  /\ (forall l s q j g,
        values (dropna returns) = Fin <$> l -> l <> [] ->
        level = Fin q -> 0 <= q <= 1 ->
        s ≡ₚ l -> StronglySorted Rle s ->
        q * (INR (length l) - 1) = INR j + g -> 0 <= g < 1 ->
        historical_var returns level =
        Ok (Fin (- (nth j s 0 + g * (nth (S j) s (nth j s 0) - nth j s 0)))))
  /\ (values (dropna returns) <> [] ->
       (forall q, level = Fin q -> ~ 0 <= q <= 1) ->
       historical_var returns level =
       Raise (ValueError "Quantiles must be in the range [0, 1]"))
  /\ historical_var (Series_of_array (Fin <$> var_example_returns))
       (Fin (2 / 10)) = Ok (Fin (26 / 1000)).
Proof.
  split; [apply historical_var_empty |]. split; [| split].
  - intros l s q j g Hl Hne -> Hq Hperm Hsorted Hidx Hg.
    by apply (historical_var_Fin returns l).
  - intros Hne Hlevel. unfold historical_var. rewrite dropna_length.
    destruct (values (dropna returns)); [done |]. cbn [length Nat.eqb].
    destruct level as [| | | q]; try done. unfold np_quantile.
    specialize (Hlevel q eq_refl).
    destruct (Rle_dec 0 q); [| done]. destruct (Rle_dec q 1); [| done].
    exfalso. apply Hlevel. done.
  - apply historical_var_example.
Qed.

(** the median of 1 and 3, negated *)
Lemma historical_var_spec_witness :
  historical_var [] (Fin (5 / 100)) = Ok (Fin 0)
  /\ historical_var (Series_of_array [Fin 3; NaN; Fin 1]) (Fin (1 / 2)) =
       Ok (Fin (- (1 + 1 / 2 * (3 - 1))))
  /\ historical_var (Series_of_array [Fin 3; NaN; Fin 1]) (Fin 2) =
       Raise (ValueError "Quantiles must be in the range [0, 1]").
Proof.
  split; [by apply (historical_var_spec [] (Fin (5 / 100))) |].
  assert (values (dropna (Series_of_array [Fin 3; NaN; Fin 1])) =
          Fin <$> [3; 1]) as Hv by reflexivity.
  split.
  - apply (historical_var_spec (Series_of_array [Fin 3; NaN; Fin 1])
             (Fin (1 / 2))) with (l := [3; 1]) (s := [1; 3]) (j := 0%nat)
                                 (q := 1 / 2) (g := 1 / 2).
    + exact Hv.
    + discriminate.
    + reflexivity.
    + lra.
    + apply perm_swap.
    + sorted_by_lra.
    + simpl. lra.
    + lra.
  - apply (historical_var_spec (Series_of_array [Fin 3; NaN; Fin 1]) (Fin 2)).
    + by rewrite Hv.
    + intros q [= <-]. lra.
Defined.

End Quantile.

(** ** Rolling volatility at the call sites *)

Section Rolling.

Lemma rolling_std_length w mp xs :
  length (rolling_std w mp xs) = length xs.
Proof. unfold rolling_std. by rewrite length_fmap, length_seq. Qed.

Lemma rolling_std_lookup w mp xs i :
  (i < length xs)%nat ->
  rolling_std w mp xs !! i =
  Some (let win := rolling_window w (inf_as_nan <$> xs) i in
        if (length (dropna_values win) <? default w mp)%nat then NaN
        else series_std 1 win).
Proof.
  intros Hi. unfold rolling_std.
  rewrite list_lookup_fmap, lookup_seq_lt by done. reflexivity.
Qed.

Lemma rolling_window_length w xs i :
  (length (rolling_window w xs i) <= Nat.min w (i + 1))%nat.
Proof.
  unfold rolling_window. rewrite length_drop, length_take. lia.
Qed.

(** the first [window - 1] positions are undefined *)
Lemma rolling_std_head w xs i :
  (i < length xs)%nat -> (i + 1 < w)%nat ->
  rolling_std w None xs !! i = Some NaN.
Proof.
  intros Hi Hw. rewrite rolling_std_lookup by done. cbv zeta. simpl default.
  pose proof (rolling_window_length w (inf_as_nan <$> xs) i).
  pose proof (dropna_values_length (rolling_window w (inf_as_nan <$> xs) i)).
  destruct (Nat.ltb_spec
              (length (dropna_values
                         (rolling_window w (inf_as_nan <$> xs) i))) w);
    [done | lia].
Qed.

Lemma sqrt_252_gt_1 : 1 < sqrt 252.
Proof.
  rewrite <- sqrt_1 at 1. apply sqrt_lt_1_alt. lra.
Qed.

(** annualizing leaves a value unchanged only when it is not a non-zero
    number *)
Lemma annualized_eq v :
  XR.mul v (XR.sqrt (XR.of_Z 252)) = v <->
  XR.is_finite v = false \/ v = Fin 0.
Proof.
  unfold XR.of_Z. rewrite XRFacts.sqrt_Fin by lra.
  pose proof sqrt_252_gt_1 as H.
  destruct v as [| | | r]; simpl;
    try rewrite XRFacts.sgn_pos by lra; simpl.
  - split; [by left | done].
  - split; [by left | done].
  - split; [by left | done].
  - split.
    + intros [= E]. right. f_equal. nra.
    + intros [? | [= ->]]; [done |]. f_equal. lra.
Qed.

Lemma annualize_lookup vol i :
  annualize vol !! i =
  (fun v => XR.mul v (XR.sqrt (XR.of_Z 252))) <$> vol !! i.
Proof. unfold annualize. apply list_lookup_fmap. Qed.

Lemma inf_as_nan_Fin (l : list R) : inf_as_nan <$> (Fin <$> l) = Fin <$> l.
Proof. rewrite <- list_fmap_compose. by apply list_fmap_ext. Qed.

Lemma spike_sum_sq_dev : sum_sq_dev spike_returns = 19 / 20.
Proof.
  unfold sum_sq_dev, Rmean, spike_returns, Rsum. simpl. field.
Qed.

Lemma spike_sample_std : sample_std spike_returns = sqrt (1 / 20).
Proof.
  unfold sample_std. rewrite spike_sum_sq_dev. f_equal.
  unfold spike_returns. simpl. field.
Qed.

Lemma spike_rolling_vol :
  rolling_vol (Fin <$> spike_returns) 20 !! 19%nat =
  Some (Fin (sqrt (1 / 20))).
Proof.
  unfold rolling_vol. rewrite rolling_std_lookup by (simpl; lia).
  rewrite inf_as_nan_Fin. cbv zeta.
  assert (rolling_window 20 (Fin <$> spike_returns) 19 =
          Fin <$> spike_returns) as -> by reflexivity.
  rewrite dropna_values_Fin. simpl default.
  assert (length (Fin <$> spike_returns) = 20%nat) as -> by reflexivity.
  cbn [Nat.ltb Nat.leb].
  rewrite series_std_sample by (simpl; lia).
  by rewrite spike_sample_std.
Qed.

Lemma spike_Volatility_20 :
  Volatility_20 (Fin <$> spike_returns) !! 19%nat =
  Some (Fin (sqrt (1 / 20) * sqrt 252)).
Proof.
  unfold Volatility_20. rewrite annualize_lookup.
  change (rolling_std 20 (Some 20%nat) (Fin <$> spike_returns))
    with (rolling_vol (Fin <$> spike_returns) 20).
  rewrite spike_rolling_vol. unfold XR.of_Z.
  rewrite XRFacts.sqrt_Fin by lra. reflexivity.
Qed.

(** C6, as stated, fails: on the same twenty returns and the same window
    of 20, the dashboard's rolling deviation at position 19 is sqrt(1/20),
    while the indicator pipeline's is sqrt(1/20) * sqrt(252). *)
Lemma rolling_volatility_differs :
  rolling_vol (Fin <$> spike_returns) 20 !! 19%nat =
    Some (Fin (sqrt (1 / 20)))
  /\ Volatility_20 (Fin <$> spike_returns) !! 19%nat =
       Some (Fin (sqrt (1 / 20) * sqrt 252))
  /\ rolling_vol (Fin <$> spike_returns) 20 <>
     Volatility_20 (Fin <$> spike_returns).
Proof.
  split; [apply spike_rolling_vol |]. split; [apply spike_Volatility_20 |].
  intros E.
  pose proof spike_rolling_vol as H1. pose proof spike_Volatility_20 as H2.
  rewrite E, H2 in H1. injection H1 as H1.
  pose proof sqrt_252_gt_1.
  assert (0 < sqrt (1 / 20)) by (apply sqrt_lt_R0; lra). nra.
Qed.

Lemma add_indicators_volatility pct_change df close :
  df_get df "Close" = Some close ->
  exists out,
    add_indicators pct_change df = Ok out
    /\ df_get out "Daily_Return" = Some (pct_change close)
    /\ df_get out "Volatility_20" = Some (Volatility_20 (pct_change close))
    /\ df_get out "Volatility_50" = Some (Volatility_50 (pct_change close)).
Proof.
  intros Hclose. unfold add_indicators. rewrite Hclose. cbv zeta.
  eexists. split; [reflexivity |].
  unfold df_get, df_set. cbn [df_columns].
  repeat (rewrite get_set_col_ne by done). rewrite !get_set_col_eq.
  cbn [default]. split; [done |]. split; [| done].
  rewrite get_set_col_ne by done. apply get_set_col_eq.
Qed.

(** C6 (amended).  On one return series and one window the dashboard's
    two computations (the plotted series and the exported rolling_vol
    column) are the same trailing sample deviation, undefined on the first
    window - 1 positions.  The indicator pipeline computes that same
    deviation for the windows 20 and 50 and multiplies it by sqrt(252):
    position by position its value is the dashboard's times sqrt(252), so
    the two agree only where the deviation is undefined or zero. *)
Theorem rolling_call_sites (df : DataFrame) (returns : list xreal)
    (window : nat) :
  df_get df "Log_Return" = Some returns ->
  plot_volatility_plotly df window = Ok (rolling_vol returns window)
  /\ (forall pct_change source close,
        df_get source "Close" = Some close -> pct_change close = returns ->
        exists out,
          add_indicators pct_change source = Ok out
          /\ df_get out "Volatility_20" =
               Some (annualize (rolling_vol returns 20))
          /\ df_get out "Volatility_50" =
               Some (annualize (rolling_vol returns 50)))
  /\ length (rolling_vol returns window) = length returns
  /\ (forall w i,
        (i < length returns)%nat ->
        exists v,
          rolling_vol returns w !! i = Some v
          /\ annualize (rolling_vol returns w) !! i =
               Some (XR.mul v (XR.sqrt (XR.of_Z 252)))
          /\ ((i + 1 < w)%nat -> v = NaN)
          /\ (XR.mul v (XR.sqrt (XR.of_Z 252)) = v <->
               XR.is_finite v = false \/ v = Fin 0)).
Proof.
  intros Hcol. split.
  { unfold plot_volatility_plotly. by rewrite Hcol. }
  split.
  { intros pct_change source close Hclose <-.
    destruct (add_indicators_volatility pct_change source close Hclose)
      as (out & Hout & _ & H20 & H50).
    by exists out. }
  split; [apply rolling_std_length |].
  intros w i Hi. unfold rolling_vol.
  destruct (rolling_std w None returns !! i) as [v |] eqn:E.
  - exists v. split; [done |]. split.
    + by rewrite annualize_lookup, E.
    + split; [| apply annualized_eq].
      intros Hw. rewrite rolling_std_head in E by done. by injection E.
  - apply lookup_ge_None in E. rewrite rolling_std_length in E. lia.
Qed.

Lemma rolling_call_sites_witness :
  plot_volatility_plotly
    {| df_index := seqZ 1 20;
       df_columns := [("Log_Return"%string, Fin <$> spike_returns)] |} 20
  = Ok (rolling_vol (Fin <$> spike_returns) 20)
  /\ exists out,
       add_indicators (fun _ => Fin <$> spike_returns)
         {| df_index := seqZ 1 20;
            df_columns := [("Close"%string, replicate 20 (Fin 1))] |}
       = Ok out
       /\ df_get out "Volatility_20" =
            Some (annualize (rolling_vol (Fin <$> spike_returns) 20)).
Proof.
  destruct (rolling_call_sites
              {| df_index := seqZ 1 20;
                 df_columns :=
                   [("Log_Return"%string, Fin <$> spike_returns)] |}
              (Fin <$> spike_returns) 20)
    as (Hplot & Hadd & _).
  - reflexivity.
  - split; [exact Hplot |].
    destruct (Hadd (fun _ => Fin <$> spike_returns)
                {| df_index := seqZ 1 20;
                   df_columns := [("Close"%string, replicate 20 (Fin 1))] |}
                (replicate 20 (Fin 1)))
      as (out & Hout & H20 & _); [reflexivity | reflexivity |].
    exists out. split; [exact Hout | exact H20].
Defined.

End Rolling.

(** ** generate_metrics *)

Section Metrics.

Lemma sharpe_annualized_total returns rf td :
  exists s, sharpe_ratio returns rf td true = Ok s.
Proof.
  unfold sharpe_ratio. cbv zeta.
  destruct (_ || _); [eauto |]. destruct (XR.is_zero _); eauto.
Qed.

Lemma historical_var_total returns q :
  0 <= q <= 1 -> exists v, historical_var returns (Fin q) = Ok v.
Proof.
  intros Hq. unfold historical_var.
  destruct (_ =? _)%nat; [eauto |]. unfold np_quantile.
  destruct (Rle_dec 0 q); [| lra]. destruct (Rle_dec q 1); [| lra]. eauto.
Qed.

Lemma generate_metrics_ok TD df c benchmark :
  df_get df "Log_Return" = Some c ->
  exists sharpe var,
    sharpe_ratio (PySeries (df_series df c)) default_risk_free_rate 252 true
      = Ok sharpe
    /\ historical_var (df_series df c) (Fin (5 / 100)) = Ok var
    /\ generate_metrics TD df benchmark =
       Ok (let base :=
             base_metrics (volatility TD (df_series df c)).1
               (volatility TD (df_series df c)).2 sharpe var in
           match benchmark with
           | Some b => <["beta" := try_float (beta (df_series df c) b)]> base
           | None => base
           end).
Proof.
  intros Hc.
  destruct (sharpe_annualized_total (PySeries (df_series df c))
              default_risk_free_rate 252) as [sharpe Hs].
  destruct (historical_var_total (df_series df c) (5 / 100)) as [var Hv];
    [lra |].
  exists sharpe, var. split; [done |]. split; [done |].
  unfold generate_metrics. rewrite Hc. unfold volatility. rewrite Hs, Hv.
  reflexivity.
Qed.

(** C7, as stated, fails: with a benchmark that is a plain list, not a
    Series, the computation succeeds and the result holds a None under
    "beta"; with no benchmark it succeeds and has no "beta" entry at all. *)
Lemma generate_metrics_none_beta :
  (exists m,
     generate_metrics 252 two_return_frame (Some (PyArray [Fin 1; Fin 2]))
       = Ok m
     /\ m !! "beta" = Some PyNone)
  /\ (exists m,
        generate_metrics 252 two_return_frame None = Ok m
        /\ m !! "beta" = None).
Proof.
  split.
  - destruct (generate_metrics_ok 252 two_return_frame [Fin 1; Fin 3]
                (Some (PyArray [Fin 1; Fin 2])))
      as (sharpe & var & _ & _ & Hm); [reflexivity |].
    eexists. split; [exact Hm |]. cbv zeta. simpl beta.
    apply lookup_insert_eq.
  - destruct (generate_metrics_ok 252 two_return_frame [Fin 1; Fin 3] None)
      as (sharpe & var & _ & _ & Hm); [reflexivity |].
    eexists. split; [exact Hm |]. reflexivity.
Qed.

(** C7 (amended).  generate_metrics fails only when the frame has no
    Log_Return column, with a ValueError that names the column.  Otherwise
    it succeeds, and daily_volatility, annual_volatility, sharpe_ratio and
    var_95 are always floats, the same whatever the benchmark is.  The beta
    entry is absent when no benchmark is given, a float when the benchmark
    is a Series, and None when computing it raises, as it does for a
    benchmark that is not a Series. *)
Theorem generate_metrics_spec (TD : Z) (df : DataFrame)
    (benchmark : option PyReturns) :
  (df_get df "Log_Return" = None ->
   generate_metrics TD df benchmark =
   Raise (ValueError
            "Log_Return column missing. Run compute_log_returns first."))
  /\ (forall c,
        df_get df "Log_Return" = Some c ->
        let log_return := df_series df c in
        exists m sharpe var,
          generate_metrics TD df benchmark = Ok m
          /\ sharpe_ratio (PySeries log_return) (Fin (1 / 100)) 252 true
               = Ok sharpe
          /\ historical_var log_return (Fin (5 / 100)) = Ok var
          /\ m !! "daily_volatility" =
               Some (PyFloat (volatility TD log_return).1)
          /\ m !! "annual_volatility" =
               Some (PyFloat (volatility TD log_return).2)
          /\ m !! "sharpe_ratio" = Some (PyFloat sharpe)
          /\ m !! "var_95" = Some (PyFloat var)
          /\ match benchmark with
             | None => m !! "beta" = None
             | Some (PySeries b) =>
                 exists x, beta log_return (PySeries b) = Ok x
                           /\ m !! "beta" = Some (PyFloat x)
             | Some (PyArray _) => m !! "beta" = Some PyNone
             end).
Proof.
  split.
  { intros H. unfold generate_metrics. by rewrite H. }
  intros c Hc log_return.
  destruct (generate_metrics_ok TD df c benchmark Hc)
    as (sharpe & var & Hs & Hv & Hm).
  eexists _, sharpe, var. split; [exact Hm |].
  split; [exact Hs |]. split; [exact Hv |]. cbv zeta.
  fold log_return.
  assert (forall key b,
    key <> "beta"%string ->
    (<["beta" := b]>
       (base_metrics (volatility TD log_return).1
          (volatility TD log_return).2 sharpe var)) !! key =
    base_metrics (volatility TD log_return).1
       (volatility TD log_return).2 sharpe var !! key) as Hother.
  { intros key b Hkey. by rewrite lookup_insert_ne. }
  destruct benchmark as [[b | xs] |].
  - rewrite !Hother by done.
    repeat (split; [reflexivity |]).
    eexists. split; [reflexivity |]. apply lookup_insert_eq.
  - rewrite !Hother by done.
    repeat (split; [reflexivity |]). apply lookup_insert_eq.
  - repeat (split; [reflexivity |]). reflexivity.
Qed.

Lemma generate_metrics_spec_witness :
  (exists m,
     generate_metrics 252 two_return_frame None = Ok m
     /\ m !! "daily_volatility" = Some (PyFloat (Fin 1))
     /\ m !! "beta" = None)
  /\ generate_metrics 252
       {| df_index := [0]%Z; df_columns := [("Close"%string, [Fin 2])] |}
       None =
     Raise (ValueError
              "Log_Return column missing. Run compute_log_returns first.").
Proof.
  split.
  - destruct (generate_metrics_spec 252 two_return_frame None) as [_ H].
    destruct (H [Fin 1; Fin 3] eq_refl)
      as (m & sharpe & var & Hm & _ & _ & Hd & _ & _ & _ & Hb).
    exists m. split; [exact Hm |]. split; [| exact Hb].
    rewrite Hd. do 2 f_equal. unfold volatility. cbn [fst].
    change (values (dropna (df_series two_return_frame [Fin 1; Fin 3])))
      with (Fin <$> [1; 3]).
    rewrite series_std_population by done. f_equal.
    apply population_std_1_3.
  - by apply generate_metrics_spec.
Defined.

End Metrics.

(** ** Risk tiers *)

Section Tiers.

Variable p : Policy.
Hypothesis p_ok : policy_ok p.

Lemma below_mono b v1 v2 : v1 <= v2 -> below b v2 = true -> below b v1 = true.
Proof.
  unfold below. intros Hle.
  destruct (inclusive b).
  - destruct (Rle_dec v2 (upper_bound b)); [| done].
    destruct (Rle_dec v1 (upper_bound b)); [done | lra].
  - destruct (Rlt_dec v2 (upper_bound b)); [| done].
    destruct (Rlt_dec v1 (upper_bound b)); [done | lra].
Qed.

Lemma below_all_mono tbl v1 v2 :
  v1 <= v2 ->
  forallb (fun b => below b v2) tbl = true ->
  forallb (fun b => below b v1) tbl = true.
Proof.
  intros Hle. rewrite !forallb_forall. intros H b Hb.
  eauto using below_mono.
Qed.

(** what the table can answer: one of its tiers, or the top one *)
Lemma lookup_tier_range tbl top v :
  lookup_tier tbl top v = top
  \/ exists b, b ∈ tbl /\ lookup_tier tbl top v = tier b.
Proof.
  induction tbl as [| b tbl IH]; simpl; [by left |].
  destruct (below b v).
  - right. exists b. split; [left | done].
  - destruct IH as [-> | (b' & Hin & ->)]; [by left |].
    right. exists b'. split; [by right | done].
Qed.

Lemma tiers_ascend_head b tbl top v :
  tiers_ascend (b :: tbl) top ->
  (tier_rank (tier b) <= tier_rank (lookup_tier tbl top v))%nat.
Proof.
  intros (Hall & Htop & _).
  destruct (lookup_tier_range tbl top v) as [-> | (b' & Hin & ->)]; [done |].
  rewrite Forall_forall in Hall. by apply Hall.
Qed.

Lemma lookup_tier_mono tbl top v1 v2 :
  tiers_ascend tbl top -> v1 <= v2 ->
  (tier_rank (lookup_tier tbl top v1)
   <= tier_rank (lookup_tier tbl top v2))%nat.
Proof.
  intros Hasc Hle. induction tbl as [| b tbl IH]; simpl; [done |].
  destruct (below b v2) eqn:E2.
  - by rewrite (below_mono b v1 v2).
  - destruct (below b v1).
    + by apply tiers_ascend_head.
    + apply IH. by destruct Hasc as (_ & _ & ?).
Qed.

Lemma classify_risk_mono v1 v2 :
  v1 <= v2 ->
  (tier_rank (classify_risk p (Fin v1))
   <= tier_rank (classify_risk p (Fin v2)))%nat.
Proof.
  intros Hle. unfold classify_risk.
  destruct (forallb (fun b => below b v2) (table p)) eqn:E2.
  - by rewrite (below_all_mono _ v1 v2).
  - destruct (forallb (fun b => below b v1) (table p)); [simpl; lia |].
    by apply lookup_tier_mono.
Qed.

(** C8 (amended).  For a policy whose tiers never go down along the
    table, classify_risk gives every input a tier, gives NaN and the
    infinities the lowest one, and is monotonic on numbers: for v1 < v2
    with v2 not +inf, the tier of v1 ranks no higher than the tier of v2.
    The tally of plot_risk_distribution reads a missing annual_volatility
    as 0 and counts a None in the lowest tier. *)
Theorem classify_risk_spec :
  (forall v, exists t, classify_risk p v = t /\ (tier_rank t <= 2)%nat)
  /\ (forall v, XR.is_finite v = false -> classify_risk p v = Low)
  /\ (forall v1 v2,
        XR.lt v1 v2 -> v2 <> PInf ->
        (tier_rank (classify_risk p v1)
         <= tier_rank (classify_risk p v2))%nat)
  /\ (forall m,
        (m !! "annual_volatility" = None ->
         risk_of_metrics p m = classify_risk p (Fin 0))
        /\ (m !! "annual_volatility" = Some PyNone ->
            risk_of_metrics p m = Low)
        /\ (forall v, m !! "annual_volatility" = Some (PyFloat v) ->
                      risk_of_metrics p m = classify_risk p v)).
Proof.
  split; [| split; [| split]].
  - intros v. eexists. split; [done |].
    destruct (classify_risk p v); simpl; lia.
  - intros [| | | r]; done.
  - intros [| | | a] [| | | b] Hlt Hinf; try done; try (simpl; lia).
    apply classify_risk_mono. simpl in Hlt. lra.
  - intros m. unfold risk_of_metrics.
    repeat split; [intros -> | intros -> | intros v ->]; done.
Qed.

End Tiers.

Lemma example_policy_ok : policy_ok example_policy.
Proof.
  unfold policy_ok, example_policy. simpl.
  repeat split; repeat constructor; simpl; lia.
Qed.

Lemma classify_example_1 : classify_risk example_policy (Fin 1) = High.
Proof.
  unfold classify_risk, example_policy. simpl. unfold below. simpl.
  destruct (Rlt_dec 1 (4 / 10)); [lra |].
  destruct (Rlt_dec 1 (8 / 10)); [lra |]. reflexivity.
Qed.

(** C8, as stated, fails at +inf: a volatility of 1 is in the highest tier
    of the example policy, +inf is larger and, being non-finite, is put in
    the lowest.  The same happens under every policy, at every number that
    is not in the lowest tier. *)
Lemma classify_risk_not_monotone_at_inf :
  policy_ok example_policy
  /\ XR.lt (Fin 1) PInf
  /\ classify_risk example_policy (Fin 1) = High
  /\ classify_risk example_policy PInf = Low
  /\ ~ (tier_rank (classify_risk example_policy (Fin 1))
        <= tier_rank (classify_risk example_policy PInf))%nat
  /\ (forall p v,
        classify_risk p (Fin v) <> Low ->
        XR.lt (Fin v) PInf
        /\ ~ (tier_rank (classify_risk p (Fin v))
              <= tier_rank (classify_risk p PInf))%nat).
Proof.
  split; [apply example_policy_ok |]. split; [exact I |].
  split; [apply classify_example_1 |]. split; [reflexivity |].
  split.
  - rewrite classify_example_1. simpl. lia.
  - intros p v Hv. split; [exact I |].
    destruct (classify_risk p (Fin v)); simpl; [done | lia | lia].
Qed.

Lemma classify_risk_spec_witness :
  classify_risk example_policy NaN = Low
  /\ (tier_rank (classify_risk example_policy (Fin (1 / 2)))
      <= tier_rank (classify_risk example_policy (Fin 1)))%nat.
Proof.
  destruct (classify_risk_spec example_policy example_policy_ok)
    as (_ & Hnan & Hmono & _).
  split.
  - by apply Hnan.
  - apply Hmono; [simpl; lra | discriminate].
Defined.
